(** * Hotspot: the source-code table model and the main window glue

    A shallow embedding of [src/models/sourcecodemodel.cpp] and of
    [mainwindow.cpp].

    Conventions of the embedding.
    - A C++ [int] is a [Z]; signed overflow is undefined behaviour in C++,
      so the arithmetic is the mathematical one.  A [quint64] that is only
      divided and reduced (as in [formatTimeString]) is an [N].
    - A [QString] is a [string]; [tr] is the identity (no translation
      catalogue is loaded).
    - A [QSet<int>] is a [gset Z]; a [QHash] that is only searched with
      [find] is its lookup function into [option].
    - Classes that live outside the two translation units ([Data::Costs],
      [QTextDocument], [Util::formatCostRelative]) are interfaces: type
      classes whose operations are the member functions the code calls.
    - The notifications sent to attached views ([beginResetModel],
      [endResetModel], [dataChanged]) carry no model state and are not
      recorded. *)

From Stdlib Require Import ZArith NArith Bool List Lia Ascii String DecimalString.
From stdpp Require Import base gmap strings list.
Import ListNotations.

(** ** Qt string helpers *)

Module QString.

(** [QString::number(quint64)]: the decimal representation. *)
Definition number (n : N) : string := NilZero.string_of_uint (N.to_uint n).

Fixpoint repeat_char (c : ascii) (k : nat) : string :=
  match k with
  | O => EmptyString
  | S k' => String c (repeat_char c k')
  end.

(** [QString::rightJustified(width, fill)] with [truncate = false]: the
    string is padded on the left up to [width]; a string that is already
    longer is returned as it is. *)
Definition rightJustified (width : nat) (fill : ascii) (s : string) : string :=
  repeat_char fill (width - String.length s) +:+ s.

Definition isEmpty (s : string) : bool :=
  match s with EmptyString => true | _ => false end.

(** [QString("%1 ...").arg(a)] for a pattern whose only place marker is a
    leading [%1]: the marker is replaced by [a]. *)
Definition arg1 (suffix a : string) : string := a +:+ suffix.

End QString.

(** ** mainwindow.cpp *)

Module MainWindow.

Definition format (fragment : N) (precision : nat) : string :=
  QString.rightJustified precision "0"%char (QString.number fragment).

Definition optional (fragment : N) : string :=
  if (0 <? fragment)%N then format fragment 2 +:+ ":" else EmptyString.

Definition formatTimeString (nanoseconds : N) : string :=
  let totalSeconds := (nanoseconds / 1000000000)%N in
  let days := (totalSeconds / 60 / 60 / 24)%N in
  let hours := ((totalSeconds / 60 / 60) mod 24)%N in
  let minutes := ((totalSeconds / 60) mod 60)%N in
  let seconds := (totalSeconds mod 60)%N in
  let milliseconds := ((nanoseconds / 1000000) mod 1000)%N in
  optional days +:+ optional hours +:+ optional minutes
    +:+ format seconds 2 +:+ "." +:+ format milliseconds 3 +:+ "s".

(** [QFileInfo(path).fileName()]: what follows the last separator of
    [path]; [cur] is the component read so far. *)
Fixpoint fileNameFrom (cur path : string) : string :=
  match path with
  | EmptyString => cur
  | String c rest =>
      if Ascii.eqb c "/"%char then fileNameFrom EmptyString rest
      else fileNameFrom (cur +:+ String c EmptyString) rest
  end.

Definition fileName (path : string) : string := fileNameFrom EmptyString path.

(** The widgets of [Ui::MainWindow] that the code names. *)
Inductive Widget : Set :=
| startPage | resultsPage | summaryTab
| openFileButton | resultsTabWidget.

Record SummaryData : Type := mkSummaryData {
  applicationRunningTime : N;
  threadCount : N;
  processCount : N;
  sampleCount : N;
  command : string
}.

Section Window.

(** [FrameData] is the parser's call-tree payload; the window only
    hands it on. *)
Variable FrameData : Type.

(** The part of the window's state that the code writes.  A
    [_shown] flag is what [show()] and [hide()] set on the widget
    itself. *)
Record State : Type := mkState {
  windowTitle : string;
  mainPageStack_currentWidget : Widget;
  resultsTabWidget_currentWidget : Widget;
  focusWidget : option Widget;
  openFileProgressBar_shown : bool;
  loadingResultsLabel_shown : bool;
  loadingResultsErrorLabel_shown : bool;
  loadingResultsErrorLabel_text : string;
  appRunTimeValue_text : string;
  threadCountValue_text : string;
  processCountValue_text : string;
  sampleCountValue_text : string;
  commandValue_text : string;
  bottomUpData : option FrameData;
  topDownData : option FrameData;
  flameGraph_bottomUpData : option FrameData;
  flameGraph_topDownData : option FrameData;
  warnings : list string;
  parseRequests : list string
}.

Definition hideLoadingResults (w : State) : State :=
  mkState w.(windowTitle) w.(mainPageStack_currentWidget)
    w.(resultsTabWidget_currentWidget) w.(focusWidget)
    false false
    w.(loadingResultsErrorLabel_shown) w.(loadingResultsErrorLabel_text)
    w.(appRunTimeValue_text) w.(threadCountValue_text)
    w.(processCountValue_text) w.(sampleCountValue_text)
    w.(commandValue_text) w.(bottomUpData) w.(topDownData)
    w.(flameGraph_bottomUpData) w.(flameGraph_topDownData)
    w.(warnings) w.(parseRequests).

Definition showLoadingResults (w : State) : State :=
  mkState w.(windowTitle) w.(mainPageStack_currentWidget)
    w.(resultsTabWidget_currentWidget) w.(focusWidget)
    true true false
    w.(loadingResultsErrorLabel_text)
    w.(appRunTimeValue_text) w.(threadCountValue_text)
    w.(processCountValue_text) w.(sampleCountValue_text)
    w.(commandValue_text) w.(bottomUpData) w.(topDownData)
    w.(flameGraph_bottomUpData) w.(flameGraph_topDownData)
    w.(warnings) w.(parseRequests).

Definition setWindowTitle (t : string) (w : State) : State :=
  mkState t w.(mainPageStack_currentWidget)
    w.(resultsTabWidget_currentWidget) w.(focusWidget)
    w.(openFileProgressBar_shown) w.(loadingResultsLabel_shown)
    w.(loadingResultsErrorLabel_shown) w.(loadingResultsErrorLabel_text)
    w.(appRunTimeValue_text) w.(threadCountValue_text)
    w.(processCountValue_text) w.(sampleCountValue_text)
    w.(commandValue_text) w.(bottomUpData) w.(topDownData)
    w.(flameGraph_bottomUpData) w.(flameGraph_topDownData)
    w.(warnings) w.(parseRequests).

Definition mainPageStack_setCurrentWidget (p : Widget) (w : State) : State :=
  mkState w.(windowTitle) p
    w.(resultsTabWidget_currentWidget) w.(focusWidget)
    w.(openFileProgressBar_shown) w.(loadingResultsLabel_shown)
    w.(loadingResultsErrorLabel_shown) w.(loadingResultsErrorLabel_text)
    w.(appRunTimeValue_text) w.(threadCountValue_text)
    w.(processCountValue_text) w.(sampleCountValue_text)
    w.(commandValue_text) w.(bottomUpData) w.(topDownData)
    w.(flameGraph_bottomUpData) w.(flameGraph_topDownData)
    w.(warnings) w.(parseRequests).

Definition resultsTabWidget_setCurrentWidget (t : Widget) (w : State) : State :=
  mkState w.(windowTitle) w.(mainPageStack_currentWidget)
    t w.(focusWidget)
    w.(openFileProgressBar_shown) w.(loadingResultsLabel_shown)
    w.(loadingResultsErrorLabel_shown) w.(loadingResultsErrorLabel_text)
    w.(appRunTimeValue_text) w.(threadCountValue_text)
    w.(processCountValue_text) w.(sampleCountValue_text)
    w.(commandValue_text) w.(bottomUpData) w.(topDownData)
    w.(flameGraph_bottomUpData) w.(flameGraph_topDownData)
    w.(warnings) w.(parseRequests).

Definition setFocus (f : Widget) (w : State) : State :=
  mkState w.(windowTitle) w.(mainPageStack_currentWidget)
    w.(resultsTabWidget_currentWidget) (Some f)
    w.(openFileProgressBar_shown) w.(loadingResultsLabel_shown)
    w.(loadingResultsErrorLabel_shown) w.(loadingResultsErrorLabel_text)
    w.(appRunTimeValue_text) w.(threadCountValue_text)
    w.(processCountValue_text) w.(sampleCountValue_text)
    w.(commandValue_text) w.(bottomUpData) w.(topDownData)
    w.(flameGraph_bottomUpData) w.(flameGraph_topDownData)
    w.(warnings) w.(parseRequests).

Definition loadingResultsErrorLabel_setText (t : string) (w : State) : State :=
  mkState w.(windowTitle) w.(mainPageStack_currentWidget)
    w.(resultsTabWidget_currentWidget) w.(focusWidget)
    w.(openFileProgressBar_shown) w.(loadingResultsLabel_shown)
    w.(loadingResultsErrorLabel_shown) t
    w.(appRunTimeValue_text) w.(threadCountValue_text)
    w.(processCountValue_text) w.(sampleCountValue_text)
    w.(commandValue_text) w.(bottomUpData) w.(topDownData)
    w.(flameGraph_bottomUpData) w.(flameGraph_topDownData)
    w.(warnings) w.(parseRequests).

Definition loadingResultsErrorLabel_setShown (b : bool) (w : State) : State :=
  mkState w.(windowTitle) w.(mainPageStack_currentWidget)
    w.(resultsTabWidget_currentWidget) w.(focusWidget)
    w.(openFileProgressBar_shown) w.(loadingResultsLabel_shown)
    b w.(loadingResultsErrorLabel_text)
    w.(appRunTimeValue_text) w.(threadCountValue_text)
    w.(processCountValue_text) w.(sampleCountValue_text)
    w.(commandValue_text) w.(bottomUpData) w.(topDownData)
    w.(flameGraph_bottomUpData) w.(flameGraph_topDownData)
    w.(warnings) w.(parseRequests).

Definition qWarning (msg : string) (w : State) : State :=
  mkState w.(windowTitle) w.(mainPageStack_currentWidget)
    w.(resultsTabWidget_currentWidget) w.(focusWidget)
    w.(openFileProgressBar_shown) w.(loadingResultsLabel_shown)
    w.(loadingResultsErrorLabel_shown) w.(loadingResultsErrorLabel_text)
    w.(appRunTimeValue_text) w.(threadCountValue_text)
    w.(processCountValue_text) w.(sampleCountValue_text)
    w.(commandValue_text) w.(bottomUpData) w.(topDownData)
    w.(flameGraph_bottomUpData) w.(flameGraph_topDownData)
    (w.(warnings) ++ [msg]) w.(parseRequests).

Definition startParseFile (path : string) (w : State) : State :=
  mkState w.(windowTitle) w.(mainPageStack_currentWidget)
    w.(resultsTabWidget_currentWidget) w.(focusWidget)
    w.(openFileProgressBar_shown) w.(loadingResultsLabel_shown)
    w.(loadingResultsErrorLabel_shown) w.(loadingResultsErrorLabel_text)
    w.(appRunTimeValue_text) w.(threadCountValue_text)
    w.(processCountValue_text) w.(sampleCountValue_text)
    w.(commandValue_text) w.(bottomUpData) w.(topDownData)
    w.(flameGraph_bottomUpData) w.(flameGraph_topDownData)
    w.(warnings) (w.(parseRequests) ++ [path]).

Definition setBottomUpData (d : FrameData) (w : State) : State :=
  mkState w.(windowTitle) w.(mainPageStack_currentWidget)
    w.(resultsTabWidget_currentWidget) w.(focusWidget)
    w.(openFileProgressBar_shown) w.(loadingResultsLabel_shown)
    w.(loadingResultsErrorLabel_shown) w.(loadingResultsErrorLabel_text)
    w.(appRunTimeValue_text) w.(threadCountValue_text)
    w.(processCountValue_text) w.(sampleCountValue_text)
    w.(commandValue_text) (Some d) w.(topDownData)
    (Some d) w.(flameGraph_topDownData)
    w.(warnings) w.(parseRequests).

Definition setTopDownData (d : FrameData) (w : State) : State :=
  mkState w.(windowTitle) w.(mainPageStack_currentWidget)
    w.(resultsTabWidget_currentWidget) w.(focusWidget)
    w.(openFileProgressBar_shown) w.(loadingResultsLabel_shown)
    w.(loadingResultsErrorLabel_shown) w.(loadingResultsErrorLabel_text)
    w.(appRunTimeValue_text) w.(threadCountValue_text)
    w.(processCountValue_text) w.(sampleCountValue_text)
    w.(commandValue_text) w.(bottomUpData) (Some d)
    w.(flameGraph_bottomUpData) (Some d)
    w.(warnings) w.(parseRequests).

Definition setSummary (d : SummaryData) (w : State) : State :=
  mkState w.(windowTitle) w.(mainPageStack_currentWidget)
    w.(resultsTabWidget_currentWidget) w.(focusWidget)
    w.(openFileProgressBar_shown) w.(loadingResultsLabel_shown)
    w.(loadingResultsErrorLabel_shown) w.(loadingResultsErrorLabel_text)
    (formatTimeString d.(applicationRunningTime))
    (QString.number d.(threadCount))
    (QString.number d.(processCount))
    (QString.number d.(sampleCount))
    d.(command) w.(bottomUpData) w.(topDownData)
    w.(flameGraph_bottomUpData) w.(flameGraph_topDownData)
    w.(warnings) w.(parseRequests).

(** [MainWindow::clear] *)
Definition clear (w : State) : State :=
  mainPageStack_setCurrentWidget startPage
    (loadingResultsErrorLabel_setShown false
       (hideLoadingResults (setWindowTitle "Hotspot" w))).

(** [MainWindow::openFile] *)
Definition openFile (path : string) (w : State) : State :=
  startParseFile path
    (showLoadingResults
       (setWindowTitle (QString.arg1 " - Hotspot" (fileName path)) w)).

(** [MainWindow::on_openFileButton_clicked]; [chosen] is what the file
    dialog returns. *)
Definition on_openFileButton_clicked (chosen : string) (w : State) : State :=
  openFile chosen w.

(** What the constructor does to the state that [setupUi] leaves; the
    one-time configuration of the views (proxy models, sorting, style
    sheet) is not part of [State]. *)
Definition construct (w : State) : State :=
  clear (setFocus openFileButton (mainPageStack_setCurrentWidget startPage w)).

(** The signals of [PerfParser] that the constructor connects. *)
Inductive Signal : Type :=
| bottomUpDataAvailable (data : FrameData)
| topDownDataAvailable (data : FrameData)
| summaryDataAvailable (data : SummaryData)
| parsingFinished
| parsingFailed (errorMessage : string).

(** The slot that the constructor's [connect] attaches to each signal:
    what the window does when the parser emits it. *)
Definition deliver (s : Signal) (w : State) : State :=
  match s with
  | bottomUpDataAvailable data => setBottomUpData data w
  | topDownDataAvailable data => setTopDownData data w
  | summaryDataAvailable data => setSummary data w
  | parsingFinished =>
      hideLoadingResults
        (setFocus resultsTabWidget
           (resultsTabWidget_setCurrentWidget summaryTab
              (mainPageStack_setCurrentWidget resultsPage w)))
  | parsingFailed errorMessage =>
      loadingResultsErrorLabel_setShown true
        (loadingResultsErrorLabel_setText errorMessage
           (hideLoadingResults (qWarning errorMessage w)))
  end.

End Window.

End MainWindow.

(** ** Interfaces of the classes declared outside the two files *)

Module Data.

(** [Data::Costs], [Data::ItemCost], [Data::Symbol] and
    [Util::formatCostRelative]: the member functions that
    [SourceCodeModel] calls, with [int] arguments as the code passes
    them. *)
Class Api : Type := {
  Costs : Type;
  ItemCost : Type;
  Symbol : Type;
  (** the value-initialised table, [Costs{}] *)
  Costs_init : Costs;
  numTypes : Costs -> Z;
  typeName : Costs -> Z -> string;
  cost : Costs -> Z -> Z -> Z;
  totalCost : Costs -> Z -> Z;
  (** [this->initializeCostsFrom(rhs)] *)
  initializeCostsFrom : Costs -> Costs -> Costs;
  (** [this->add(id, itemCost)] *)
  add : Costs -> Z -> ItemCost -> Costs;
  prettySymbol : Symbol -> string;
  formatCostRelative : Z -> Z -> bool -> string
}.

Section Results.
Context `{Api}.

Record LocationCost : Type := mkLocationCost {
  selfCost : ItemCost;
  inclusiveCost : ItemCost
}.

Record CallerCalleeEntry : Type := mkCallerCalleeEntry {
  offsetMap : Z -> option LocationCost
}.

Record CallerCalleeResults : Type := mkCallerCalleeResults {
  entries : Symbol -> option CallerCalleeEntry;
  selfCosts : Costs;
  inclusiveCosts : Costs
}.
End Results.

End Data.

Module Text.

(** [QTextDocument], [QTextBlock] and [QTextLine] as the model uses
    them. *)
Class Api : Type := {
  QTextDocument : Type;
  QTextBlock : Type;
  QTextLine : Type;
  (** [doc->clear()] *)
  clear : QTextDocument -> QTextDocument;
  (** [doc->setPlainText(text)] *)
  setPlainText : string -> QTextDocument -> QTextDocument;
  (** [doc->setTextWidth(doc->idealWidth())] *)
  setIdealTextWidth : QTextDocument -> QTextDocument;
  (** [doc->findBlockByLineNumber(n)] *)
  findBlockByLineNumber : QTextDocument -> Z -> QTextBlock;
  isValid : QTextBlock -> bool;
  text : QTextBlock -> string;
  (** [block.layout()->lineAt(0)] *)
  layoutLineAt0 : QTextBlock -> QTextLine;
  (** a cursor on the block of line [n]: [select(LineUnderCursor)],
      [removeSelectedText()], [insertText(s)] *)
  replaceLineUnderCursor : Z -> string -> QTextDocument -> QTextDocument
}.

End Text.

(** ** Qt model/view vocabulary *)

Module Qt.

Inductive Orientation : Set := Horizontal | Vertical.

(** A [QModelIndex]: the default-constructed one has row and column
    [-1] and no model. *)
Record QModelIndex : Set := mkIndex {
  row : Z;
  column : Z;
  hasModel : bool
}.

Definition rootIndex : QModelIndex := mkIndex (-1) (-1) false.

(** [QModelIndex::isValid] *)
Definition isValid (i : QModelIndex) : bool :=
  (0 <=? i.(row))%Z && (0 <=? i.(column))%Z && i.(hasModel).

(** [QModelIndex::parent] for an index of a [QAbstractTableModel], whose
    [parent()] returns the default-constructed index. *)
Definition parent (i : QModelIndex) : QModelIndex := rootIndex.

End Qt.

(** ** sourcecodemodel.cpp *)

Module SourceCodeModel.

Import Qt.
Local Open Scope Z_scope.

(** Modelled from the spec: [enum Columns] of [sourcecodemodel.h], which
    is not among the sources.  These are the values under which [data],
    [columnCount] and [hasIndex] are run; the statements about them use
    the enumerators by name.  The sources do not give the order of the
    enumerators, so [headerData], whose answer at a numbered section
    depends on that order, takes the enumeration as an argument (see
    [Columns] below). *)
Definition SourceCodeColumn : Z := 0.
Definition SourceCodeLineNumber : Z := 1.
Definition COLUMN_COUNT : Z := 2.

(** Modelled from the spec: the roles that [data] dispatches on.
    [DisplayRole] and [ToolTipRole] are Qt's, the others are the
    enumerators of [enum CustomRoles] of [sourcecodemodel.h], which is
    not among the sources; [OtherRole] stands for every other value of
    the [int role] argument. *)
Inductive Role : Set :=
| DisplayRole | ToolTipRole
| CostRole | TotalCostRole | HighlightRole | RainbowLineNumberRole
| SyntaxHighlightRole | FileNameRole | LineNumberRole
| OtherRole (r : Z).

Definition INT_MAX : Z := 2147483647.
Definition INT_MIN : Z := -2147483648.

(** [QDir::separator()] on the platforms Hotspot runs on. *)
Definition separator : string := "/".

Record DisassemblyLine : Type := mkDisassemblyLine {
  addr : Z;
  disassembly : string;
  sourceFileName : string;
  sourceCodeLine : Z
}.

Section Model.
Context `{DA : Data.Api} `{TA : Text.Api}.

Record DisassemblyOutput : Type := mkDisassemblyOutput {
  disassemblyLines : list DisassemblyLine;
  mainSourceFileName : string;
  symbol : Data.Symbol
}.

Inductive QVariant : Type :=
| Invalid
| VInt (i : Z)
| VULongLong (c : Z)
| VBool (b : bool)
| VString (s : string)
| VTextLine (l : Text.QTextLine).

(** The members of the class.  [m_highlighter] is represented by the
    file name it last chose a syntax definition for. *)
Record t : Type := mk {
  m_sysroot : string;
  m_document : Text.QTextDocument;
  m_highlighter : string;
  m_selfCosts : Data.Costs;
  m_inclusiveCosts : Data.Costs;
  m_numLines : Z;
  m_validLineNumbers : gset Z;
  m_lineOffset : Z;
  m_startLine : Z;
  m_mainSourceFileName : string;
  m_highlightLine : Z
}.

Definition clear (m : t) : t :=
  mk m.(m_sysroot) (Text.clear m.(m_document)) m.(m_highlighter)
     m.(m_selfCosts) m.(m_inclusiveCosts) m.(m_numLines)
     m.(m_validLineNumbers) m.(m_lineOffset) m.(m_startLine)
     m.(m_mainSourceFileName) m.(m_highlightLine).

Definition setSysroot (sysroot : string) (m : t) : t :=
  mk sysroot m.(m_document) m.(m_highlighter)
     m.(m_selfCosts) m.(m_inclusiveCosts) m.(m_numLines)
     m.(m_validLineNumbers) m.(m_lineOffset) m.(m_startLine)
     m.(m_mainSourceFileName) m.(m_highlightLine).

Definition updateHighlighting (line : Z) (m : t) : t :=
  mk m.(m_sysroot) m.(m_document) m.(m_highlighter)
     m.(m_selfCosts) m.(m_inclusiveCosts) m.(m_numLines)
     m.(m_validLineNumbers) m.(m_lineOffset) m.(m_startLine)
     m.(m_mainSourceFileName) line.

Definition columnCount (m : t) (parent : QModelIndex) : Z :=
  if isValid parent then 0
  else COLUMN_COUNT + Data.numTypes m.(m_selfCosts)
         + Data.numTypes m.(m_inclusiveCosts).

Definition rowCount (m : t) (parent : QModelIndex) : Z :=
  if isValid parent then 0 else m.(m_numLines).

(** [QAbstractItemModel::hasIndex] *)
Definition hasIndex (m : t) (row column : Z) (parent : QModelIndex) : bool :=
  if (row <? 0) || (column <? 0) then false
  else (row <? rowCount m parent) && (column <? columnCount m parent).

Definition lineForIndex (m : t) (index : QModelIndex) : Z :=
  index.(row) + m.(m_lineOffset).

(** A declaration of [enum Columns]: the values that the header gives
    to the three enumerators that the code names. *)
Record Columns : Set := mkColumns {
  enum_SourceCodeColumn : Z;
  enum_SourceCodeLineNumber : Z;
  enum_COLUMN_COUNT : Z
}.

(** [headerData], under the declaration [cols] of [enum Columns]. *)
Definition headerData (cols : Columns) (m : t) (section : Z)
    (orientation : Orientation) (role : Role) : QVariant :=
  if (section <? 0)
     || (section >=? cols.(enum_COLUMN_COUNT) + Data.numTypes m.(m_selfCosts)
                       + Data.numTypes m.(m_inclusiveCosts))
  then Invalid
  else
    match role, orientation with
    | DisplayRole, Horizontal =>
        if section =? cols.(enum_SourceCodeColumn) then VString "Source Code"
        else if section =? cols.(enum_SourceCodeLineNumber) then VString "Line"
        else
          let section := section - cols.(enum_COLUMN_COUNT) in
          if section <? Data.numTypes m.(m_selfCosts) then
            VString (QString.arg1 " (self)"
                       (Data.typeName m.(m_selfCosts) section))
          else
            let section := section - Data.numTypes m.(m_selfCosts) in
            VString (QString.arg1 " (incl.)"
                       (Data.typeName m.(m_inclusiveCosts) section))
    | _, _ => Invalid
    end.

(** The lambda [cost] of [data], with its captures [role] and [id]. *)
Definition costCell (role : Role) (id : Z) (type : Z) (costs : Data.Costs)
    : QVariant :=
  let cost := Data.cost costs type id in
  let totalCost := Data.totalCost costs type in
  match role with
  | CostRole => VULongLong cost
  | TotalCostRole => VULongLong totalCost
  | _ => VString (Data.formatCostRelative cost totalCost true)
  end.

Definition data (m : t) (index : QModelIndex) (role : Role) : QVariant :=
  if negb (hasIndex m index.(row) index.(column) (parent index)) then Invalid
  else if (index.(row) >? m.(m_numLines)) || (index.(row) <? 0) then Invalid
  else
    match role with
    | FileNameRole => VString m.(m_mainSourceFileName)
    | LineNumberRole => VInt (index.(row) + m.(m_lineOffset))
    | DisplayRole | ToolTipRole | CostRole | TotalCostRole
    | SyntaxHighlightRole =>
        if index.(column) =? SourceCodeColumn then
          let block :=
            Text.findBlockByLineNumber m.(m_document)
              (index.(row) + m.(m_startLine)) in
          if negb (Text.isValid block) then Invalid
          else
            match role with
            | SyntaxHighlightRole => VTextLine (Text.layoutLineAt0 block)
            | _ => VString (Text.text block)
            end
        else if index.(column) =? SourceCodeLineNumber then
          VInt (index.(row) + m.(m_lineOffset))
        else
          let id := index.(row) + m.(m_lineOffset) in
          let column := index.(column) - COLUMN_COUNT in
          if column <? Data.numTypes m.(m_selfCosts) then
            costCell role id column m.(m_selfCosts)
          else
            costCell role id (column - Data.numTypes m.(m_selfCosts))
              m.(m_inclusiveCosts)
    | HighlightRole =>
        VBool (index.(row) + m.(m_lineOffset) =? m.(m_highlightLine))
    | RainbowLineNumberRole =>
        let line := index.(row) + m.(m_lineOffset) in
        if bool_decide (line ∈ m.(m_validLineNumbers)) then VInt line
        else VInt (-1)
    | OtherRole _ => Invalid
    end.

(** *** [setDisassembly] *)

(** The variables that the loop over [disassemblyLines] updates. *)
Record LoopState : Type := mkLoop {
  maxLineNumber : Z;
  minLineNumber : Z;
  loop_selfCosts : Data.Costs;
  loop_inclusiveCosts : Data.Costs;
  loop_validLineNumbers : gset Z
}.

(** The test that makes the loop [continue]. *)
Definition skipped (main : string) (line : DisassemblyLine) : bool :=
  (line.(sourceCodeLine) =? 0)
  || negb (String.eqb line.(sourceFileName) main).

(** One iteration of the loop body. *)
Definition loopBody (out : DisassemblyOutput)
    (results : Data.CallerCalleeResults)
    (st : LoopState) (line : DisassemblyLine) : LoopState :=
  if skipped out.(mainSourceFileName) line then st
  else
    let mx := if line.(sourceCodeLine) >? st.(maxLineNumber)
              then line.(sourceCodeLine) else st.(maxLineNumber) in
    let mn := if line.(sourceCodeLine) <? st.(minLineNumber)
              then line.(sourceCodeLine) else st.(minLineNumber) in
    let '(self, incl) :=
      match Data.entries results out.(symbol) with
      | Some entry =>
          match Data.offsetMap entry line.(addr) with
          | Some locationCost =>
              (Data.add st.(loop_selfCosts) line.(sourceCodeLine)
                 (Data.selfCost locationCost),
               Data.add st.(loop_inclusiveCosts) line.(sourceCodeLine)
                 (Data.inclusiveCost locationCost))
          | None => (st.(loop_selfCosts), st.(loop_inclusiveCosts))
          end
      | None => (st.(loop_selfCosts), st.(loop_inclusiveCosts))
      end in
    mkLoop mx mn self incl
      (st.(loop_validLineNumbers) ∪ {[ line.(sourceCodeLine) ]}).

Definition loopInit (results : Data.CallerCalleeResults) : LoopState :=
  mkLoop 0 INT_MAX
    (Data.initializeCostsFrom Data.Costs_init (Data.selfCosts results))
    (Data.initializeCostsFrom Data.Costs_init (Data.inclusiveCosts results))
    ∅.

Definition runLoop (out : DisassemblyOutput)
    (results : Data.CallerCalleeResults) : LoopState :=
  fold_left (loopBody out results) out.(disassemblyLines) (loopInit results).

(** How a call ends: it returns with the new members, or a [Q_ASSERT]
    stops the program. *)
Inductive Outcome : Type :=
| Returned (m : t)
| AssertionFailed (condition : string).

(** [fs path] is the text of the file at [path] when
    [QFile::open(ReadOnly | Text)] succeeds, and [None] when it
    fails. *)
Definition setDisassembly (fs : string -> option string)
    (out : DisassemblyOutput) (results : Data.CallerCalleeResults)
    (m : t) : Outcome :=
  let reset :=
    mk m.(m_sysroot) m.(m_document) m.(m_highlighter)
       Data.Costs_init Data.Costs_init 0
       m.(m_validLineNumbers) m.(m_lineOffset) m.(m_startLine)
       m.(m_mainSourceFileName) m.(m_highlightLine) in
  if QString.isEmpty out.(mainSourceFileName) then Returned reset
  else
    match fs (m.(m_sysroot) +:+ separator +:+ out.(mainSourceFileName)) with
    | None => Returned reset
    | Some sourceCode =>
        let st := runLoop out results in
        if negb (st.(minLineNumber) >? 0) then
          AssertionFailed "minLineNumber > 0"
        else if negb (st.(minLineNumber) <? st.(maxLineNumber)) then
          AssertionFailed "minLineNumber < maxLineNumber"
        else
          let startLine := st.(minLineNumber) - 2 in
          let lineOffset := st.(minLineNumber) - 1 in
          let numLines := st.(maxLineNumber) - startLine in
          let document :=
            Text.replaceLineUnderCursor startLine
              (Data.prettySymbol out.(symbol))
              (Text.setIdealTextWidth
                 (Text.setPlainText sourceCode m.(m_document))) in
          Returned
            (mk m.(m_sysroot) document out.(mainSourceFileName)
                st.(loop_selfCosts) st.(loop_inclusiveCosts) numLines
                st.(loop_validLineNumbers) lineOffset startLine
                out.(mainSourceFileName) m.(m_highlightLine))
    end.

End Model.

End SourceCodeModel.

(** ** Reference instances of the interfaces

    A small cost table and a line-per-block text document, on which the
    model can be run. *)

Module Reference.

Local Open Scope Z_scope.

(** A cost table: the names and totals of the cost types, and the
    increments recorded so far as [(type, id, delta)]. *)
Record CostTable : Type := mkCostTable {
  names : list string;
  totals : list Z;
  cells : list (Z * Z * Z)
}.

Definition cellsOf (id : Z) (item : list Z) : list (Z * Z * Z) :=
  imap (fun type delta => (Z.of_nat type, id, delta)) item.

Definition cellCost (type id : Z) (c : Z * Z * Z) : Z :=
  let '(t, i, delta) := c in
  if (t =? type) && (i =? id) then delta else 0.

Definition tableCost (c : CostTable) (type id : Z) : Z :=
  fold_right (fun cell acc => cellCost type id cell + acc) 0 c.(cells).

Definition percent (cost total : Z) : string :=
  if total =? 0 then "0%"
  else QString.number (Z.to_N (100 * cost / total)) +:+ "%".

#[export] Instance dataApi : Data.Api := {|
  Data.Costs := CostTable;
  Data.ItemCost := list Z;
  Data.Symbol := string;
  Data.Costs_init := mkCostTable [] [] [];
  Data.numTypes c := Z.of_nat (length c.(names));
  Data.typeName c type := nth (Z.to_nat type) c.(names) EmptyString;
  Data.cost := tableCost;
  Data.totalCost c type := nth (Z.to_nat type) c.(totals) 0;
  Data.initializeCostsFrom _ rhs := mkCostTable rhs.(names) rhs.(totals) [];
  Data.add c id item :=
    mkCostTable c.(names) c.(totals) (c.(cells) ++ cellsOf id item);
  Data.prettySymbol s := s;
  Data.formatCostRelative cost total _ := percent cost total
|}.

(** Splitting a text at its line feeds. *)
Fixpoint splitLines (cur : string) (s : string) : list string :=
  match s with
  | EmptyString => [cur]
  | String c s' =>
      if Ascii.eqb c "010"%char then cur :: splitLines EmptyString s'
      else splitLines (cur +:+ String c EmptyString) s'
  end.

Definition blockAt (d : list string) (n : Z) : option string :=
  if n <? 0 then None else d !! Z.to_nat n.

#[export] Instance textApi : Text.Api := {|
  Text.QTextDocument := list string;
  Text.QTextBlock := option string;
  Text.QTextLine := string;
  Text.clear _ := [EmptyString];
  Text.setPlainText s _ := splitLines EmptyString s;
  Text.setIdealTextWidth d := d;
  Text.findBlockByLineNumber := blockAt;
  Text.isValid b := match b with Some _ => true | None => false end;
  Text.text b := default EmptyString b;
  Text.layoutLineAt0 b := default EmptyString b;
  Text.replaceLineUnderCursor n s d :=
    if n <? 0 then d else <[Z.to_nat n := s]> d
|}.

Import SourceCodeModel.

(** A model showing lines 3 to 5 of [main.cpp], with one cost type. *)
Definition cycles : CostTable :=
  mkCostTable ["cycles"] [10] [(0, 3, 4); (0, 5, 6)].

Definition shown : SourceCodeModel.t :=
  mk "/sysroot" ["int f()"; "{"; "  return 1;"; "}"; ""] "main.cpp"
     cycles cycles 4 {[ 3; 5 ]} 2 1 "main.cpp" 3.

Definition line (a : Z) (file : string) (n : Z) : DisassemblyLine :=
  mkDisassemblyLine a "nop" file n.

Definition noResults : Data.CallerCalleeResults :=
  Data.mkCallerCalleeResults (fun _ => None) cycles cycles.

Definition lf : string := String "010"%char EmptyString.

Definition disk (path : string) : option string :=
  if String.eqb path "/sysroot/main.cpp"
  then Some ("int f()" +:+ lf +:+ "{" +:+ lf +:+ "  return 1;" +:+ lf
             +:+ "}" +:+ lf)
  else None.

(** Two lines of [main.cpp] and one of an inlined header. *)
Definition twoLines : DisassemblyOutput :=
  mkDisassemblyOutput
    [line 16 "main.cpp" 3; line 20 "vector.h" 90; line 24 "main.cpp" 5]
    "main.cpp" "f()".

(** As [twoLines], but the first line of [main.cpp] has a negative
    line number. *)
Definition negativeLine : DisassemblyOutput :=
  mkDisassemblyOutput
    [line 12 "main.cpp" (-1); line 16 "main.cpp" 3; line 24 "main.cpp" 5]
    "main.cpp" "f()".

Definition missingFile : DisassemblyOutput :=
  mkDisassemblyOutput [line 16 "gone.cpp" 3; line 24 "gone.cpp" 5]
    "gone.cpp" "f()".

(** Results that know the symbol of [twoLines]: a cost at the address
    of its first line, and one at the address of the line that comes from
    the inlined header. *)
Definition chargedResults : Data.CallerCalleeResults :=
  @Data.mkCallerCalleeResults dataApi
    (fun s : string =>
       if String.eqb s "f()" then
         Some (@Data.mkCallerCalleeEntry dataApi
                 (fun a : Z =>
                    if a =? 16 then Some (@Data.mkLocationCost dataApi [4] [9])
                    else if a =? 20
                    then Some (@Data.mkLocationCost dataApi [100] [100])
                    else None))
       else None)
    cycles cycles.

(** The model after [twoLines] was loaded with [chargedResults]. *)
Definition loadedCharged : SourceCodeModel.t :=
  match setDisassembly disk twoLines chargedResults shown with
  | Returned m' => m'
  | AssertionFailed _ => shown
  end.

(** A model with the system root, document and highlighted line of
    [shown] and nothing else in common with it. *)
Definition unrelated : SourceCodeModel.t :=
  mk "/sysroot" ["int f()"; "{"; "  return 1;"; "}"; ""] "other.cpp"
     (mkCostTable [] [] []) (mkCostTable [] [] []) 90 {[ 7 ]} 40 39
     "other.cpp" 3.

(** A window as [setupUi] may leave it, before the constructor's own
    statements. *)
Definition blank : MainWindow.State unit :=
  MainWindow.mkState unit EmptyString MainWindow.resultsPage
    MainWindow.summaryTab None true true true EmptyString
    EmptyString EmptyString EmptyString EmptyString EmptyString
    None None None None [] [].

End Reference.

(** ** Vocabulary of the statements

    These definitions follow the wording of the properties, not the code:
    the theorems below compare them with the embedding above. *)

Module Stated.

(** The character of a decimal digit. *)
Definition digitChar (d : N) : ascii := ascii_of_N (48 + d).

(** A number below 100 written with exactly two digits. *)
Definition twoDigits (n : N) : string :=
  String (digitChar (n / 10)) (String (digitChar (n mod 10)) EmptyString).

(** A number below 1000 written with exactly three digits. *)
Definition threeDigits (n : N) : string :=
  String (digitChar (n / 100)) (twoDigits (n mod 100)).

(** A field of the time string that is left out when it is zero. *)
Definition omittedWhenZero (n : N) : string :=
  if (n =? 0)%N then EmptyString
  else MainWindow.format n 2 +:+ ":".

(** [P] holds for every natural number below [k]. *)
Definition allBelow (k : nat) (P : N -> bool) : bool :=
  forallb P (map N.of_nat (seq 0 k)).

Import SourceCodeModel.
Local Open Scope Z_scope.

(** A value that an [int] can hold. *)
Definition isInt (z : Z) : Prop := INT_MIN <= z <= INT_MAX.

Section Lines.
Context `{DA : Data.Api}.

(** An entry of the disassembly that names a line of the main source
    file. *)
Definition ofMainFile (out : DisassemblyOutput) (l : DisassemblyLine) : Prop :=
  l ∈ out.(disassemblyLines)
  ∧ l.(sourceFileName) = out.(mainSourceFileName)
  ∧ l.(sourceCodeLine) ≠ 0.

(** "at least two entries with distinct positive sourceCodeLine whose
    sourceFileName equals mainSourceFileName" *)
Definition twoDistinctPositiveLines (out : DisassemblyOutput) : Prop :=
  ∃ a b : DisassemblyLine,
    ofMainFile out a ∧ ofMainFile out b
    ∧ 0 < a.(sourceCodeLine) ∧ 0 < b.(sourceCodeLine)
    ∧ a.(sourceCodeLine) ≠ b.(sourceCodeLine).

(** "zero or only one distinct matching line number exists" *)
Definition atMostOneLineNumber (out : DisassemblyOutput) : Prop :=
  ∀ a b : DisassemblyLine,
    ofMainFile out a → ofMainFile out b →
    a.(sourceCodeLine) = b.(sourceCodeLine).

(** No entry of the main source file has a negative line number. *)
Definition noNegativeLine (out : DisassemblyOutput) : Prop :=
  ∀ l : DisassemblyLine, ofMainFile out l → 0 < l.(sourceCodeLine).

(** Every line number of the disassembly is an [int]. *)
Definition intLines (out : DisassemblyOutput) : Prop :=
  ∀ l : DisassemblyLine,
    l ∈ out.(disassemblyLines) → isInt l.(sourceCodeLine).

Context `{TA : Text.Api}.

(** Both assertions of [setDisassembly] hold: the call returns. *)
Definition assertionsHold (fs : string -> option string)
    (out : DisassemblyOutput) (results : Data.CallerCalleeResults)
    (m : SourceCodeModel.t) : Prop :=
  ∃ m', setDisassembly fs out results m = Returned m'.

(** The source file of [out] opens. *)
Definition fileOpens (fs : string -> option string)
    (out : DisassemblyOutput) (m : SourceCodeModel.t) : Prop :=
  QString.isEmpty out.(mainSourceFileName) = false
  ∧ ∃ sourceCode,
      fs (m.(m_sysroot) +:+ separator +:+ out.(mainSourceFileName))
      = Some sourceCode.
End Lines.

End Stated.

(** ** Further definitions

    The change notification of [updateHighlighting], runs of parser
    signals, and the vocabulary of the remaining statements. *)

Module Notify.

Import Qt SourceCodeModel.

Section Model.
Context `{DA : Data.Api} `{TA : Text.Api}.

(** The two corners that [updateHighlighting] passes to [dataChanged]:
    [createIndex(0, SourceCodeColumn)] and
    [createIndex(rowCount(), SourceCodeColumn)]. *)
Definition updateHighlighting_dataChanged (m : SourceCodeModel.t)
    : QModelIndex * QModelIndex :=
  (mkIndex 0 SourceCodeColumn true,
   mkIndex (rowCount m rootIndex) SourceCodeColumn true).

End Model.

End Notify.

Module Runs.

Import MainWindow.

(** The parser's signals delivered one after the other. *)
Definition deliverAll (FrameData : Type) (signals : list (Signal FrameData))
    (w : State FrameData) : State FrameData :=
  fold_left (fun w s => deliver FrameData s w) signals w.

(** The signal reports a failure. *)
Definition isFailure (FrameData : Type) (s : Signal FrameData) : bool :=
  match s with
  | parsingFailed _ _ => true
  | _ => false
  end.

End Runs.

Module Reading.

(** The value of a decimal digit character. *)
Definition digitValue (c : ascii) : N := (N_of_ascii c - 48)%N.

(** Reading back a time string of the form [ss.mmms]: the seconds and
    the milliseconds. *)
Definition readShortTime (s : string) : option (N * N) :=
  match s with
  | String a (String b (String _ (String c (String d (String e
      (String _ EmptyString)))))) =>
      Some ((10 * digitValue a + digitValue b)%N,
            (100 * digitValue c + 10 * digitValue d + digitValue e)%N)
  | _ => None
  end.

Import SourceCodeModel.

Section Charges.
Context `{DA : Data.Api}.

(** The entries of the disassembly that are charged to a source line:
    those whose [sourceFileName] is the main source file and whose
    [sourceCodeLine] is not 0, when the offset map of the symbol has a
    cost for their address; each with the line it is charged to. *)
Definition charges (out : DisassemblyOutput)
    (results : Data.CallerCalleeResults) : list (Z * Data.LocationCost) :=
  match Data.entries results out.(symbol) with
  | None => []
  | Some entry =>
      omap (fun l : DisassemblyLine =>
              if bool_decide (l.(sourceFileName) = out.(mainSourceFileName)
                              ∧ l.(sourceCodeLine) ≠ 0%Z)
              then match Data.offsetMap entry l.(addr) with
                   | Some locationCost => Some (l.(sourceCodeLine), locationCost)
                   | None => None
                   end
              else None)
           out.(disassemblyLines)
  end.

End Charges.

End Reading.

Module IntBuild.

Import Qt SourceCodeModel.
Local Open Scope Z_scope.

(** The [int] that holds the mathematical value [z] after two's
    complement wrap-around. *)
Definition wrapInt (z : Z) : Z := (z - INT_MIN) mod 4294967296 + INT_MIN.

Section Model.
Context `{DA : Data.Api} `{TA : Text.Api}.

(** [setDisassembly] as a build without assertions runs it ([Q_ASSERT]
    expands to nothing under [QT_NO_DEBUG]), with [m_startLine],
    [m_lineOffset] and [m_numLines] computed in [int]. *)
Definition setDisassembly_noAssert (fs : string -> option string)
    (out : DisassemblyOutput) (results : Data.CallerCalleeResults)
    (m : SourceCodeModel.t) : SourceCodeModel.t :=
  let reset :=
    mk m.(m_sysroot) m.(m_document) m.(m_highlighter)
       Data.Costs_init Data.Costs_init 0
       m.(m_validLineNumbers) m.(m_lineOffset) m.(m_startLine)
       m.(m_mainSourceFileName) m.(m_highlightLine) in
  if QString.isEmpty out.(mainSourceFileName) then reset
  else
    match fs (m.(m_sysroot) +:+ separator +:+ out.(mainSourceFileName)) with
    | None => reset
    | Some sourceCode =>
        let st := runLoop out results in
        let startLine := wrapInt (st.(minLineNumber) - 2) in
        let lineOffset := wrapInt (st.(minLineNumber) - 1) in
        let numLines := wrapInt (st.(maxLineNumber) - startLine) in
        let document :=
          Text.replaceLineUnderCursor startLine
            (Data.prettySymbol out.(symbol))
            (Text.setIdealTextWidth
               (Text.setPlainText sourceCode m.(m_document))) in
        mk m.(m_sysroot) document out.(mainSourceFileName)
           st.(loop_selfCosts) st.(loop_inclusiveCosts) numLines
           st.(loop_validLineNumbers) lineOffset startLine
           out.(mainSourceFileName) m.(m_highlightLine)
    end.

(** The lines of the main source file span no more rows than an [int]
    counts: the distance of any two of them, plus the two extra rows, is
    at most [INT_MAX]. *)
Definition spanFitsInt (out : DisassemblyOutput) : Prop :=
  ∀ a b : DisassemblyLine,
    Stated.ofMainFile out a → Stated.ofMainFile out b →
    b.(sourceCodeLine) - a.(sourceCodeLine) + 2 <= INT_MAX.

End Model.

End IntBuild.

(** * Properties *)

(** ** The running-time label *)

Section FormatTimeString.
Import MainWindow Stated.
Local Open Scope N_scope.

Lemma allBelow_spec (k : nat) (P : N -> bool) :
  allBelow k P = true -> forall n, n < N.of_nat k -> P n = true.
Proof.
  unfold allBelow. rewrite forallb_forall. intros Hall n Hn.
  apply Hall. apply in_map_iff. exists (N.to_nat n). split.
  - apply N2Nat.id.
  - apply in_seq. lia.
Qed.

Lemma format_twoDigits (n : N) : n < 100 -> format n 2 = twoDigits n.
Proof.
  intros Hn.
  assert (Hall : allBelow 100
            (fun k => String.eqb (format k 2) (twoDigits k)) = true)
    by (vm_compute; reflexivity).
  apply String.eqb_eq. apply (allBelow_spec 100 _ Hall). exact Hn.
Qed.

Lemma format_threeDigits (n : N) : n < 1000 -> format n 3 = threeDigits n.
Proof.
  intros Hn.
  assert (Hall : allBelow 1000
            (fun k => String.eqb (format k 3) (threeDigits k)) = true)
    by (vm_compute; reflexivity).
  apply String.eqb_eq. apply (allBelow_spec 1000 _ Hall). exact Hn.
Qed.

Lemma optional_omittedWhenZero (n : N) : optional n = omittedWhenZero n.
Proof.
  unfold optional, omittedWhenZero.
  destruct (N.eqb_spec n 0) as [-> | Hne]; [reflexivity |].
  assert (H : (0 <? n) = true) by (apply N.ltb_lt; lia).
  rewrite H. reflexivity.
Qed.

Lemma optional_zero : optional 0 = EmptyString.
Proof. reflexivity. Qed.

(** C10.  [formatTimeString] leaves out each of the days, hours and
    minutes fields when that field is zero.  It is therefore not
    injective: 3605 seconds and 65 seconds are both written
    "01:05.000s".  A duration strictly under one minute is written as
    the two-digit seconds, a dot, the three-digit milliseconds and an
    [s]. *)
Theorem formatTimeString_omits_zero_fields :
  (forall ns : N,
      let totalSeconds := ns / 1000000000 in
      formatTimeString ns =
        omittedWhenZero (totalSeconds / 86400)
        +:+ omittedWhenZero ((totalSeconds / 3600) mod 24)
        +:+ omittedWhenZero ((totalSeconds / 60) mod 60)
        +:+ format (totalSeconds mod 60) 2 +:+ "."
        +:+ format ((ns / 1000000) mod 1000) 3 +:+ "s")
  /\ (formatTimeString (3605 * 1000000000) = "01:05.000s"%string
      /\ formatTimeString (65 * 1000000000) = "01:05.000s"%string
      /\ 3605 * 1000000000 <> 65 * 1000000000)
  /\ ~ (forall a b : N, formatTimeString a = formatTimeString b -> a = b)
  /\ (forall ns : N,
        ns < 60 * 1000000000 ->
        formatTimeString ns =
          twoDigits (ns / 1000000000) +:+ "."
          +:+ threeDigits ((ns / 1000000) mod 1000) +:+ "s").
Proof.
  split; [| split; [| split]].
  - intros ns totalSeconds. unfold formatTimeString.
    fold totalSeconds. rewrite !optional_omittedWhenZero.
    rewrite !N.Div0.div_div. reflexivity.
  - repeat split; [vm_compute; reflexivity .. | discriminate].
  - intros Hinj.
    specialize (Hinj (3605 * 1000000000) (65 * 1000000000)).
    discriminate Hinj. vm_compute. reflexivity.
  - intros ns Hns. unfold formatTimeString.
    assert (Hts : ns / 1000000000 < 60)
      by (apply N.Div0.div_lt_upper_bound; lia).
    set (ts := ns / 1000000000) in *.
    assert (Hmin : ts / 60 = 0) by (apply N.div_small; exact Hts).
    rewrite Hmin. change (0 / 60 / 24) with 0. change (0 / 60 mod 24) with 0.
    change (0 mod 60) with 0. rewrite optional_zero. simpl String.append at 1.
    rewrite (N.mod_small ts 60) by exact Hts.
    rewrite format_twoDigits by lia.
    rewrite format_threeDigits by (apply N.mod_lt; lia).
    reflexivity.
Qed.

Lemma formatTimeString_omits_zero_fields_witness :
  59999 * 1000000 < 60 * 1000000000
  /\ formatTimeString (59999 * 1000000) = "59.999s"%string.
Proof.
  split; [reflexivity |].
  exact (proj2 (proj2 (proj2 formatTimeString_omits_zero_fields))
           (59999 * 1000000) eq_refl).
Defined.

End FormatTimeString.

(** ** The parse life cycle of the main window *)

Section ParseLifecycle.
Import MainWindow.
Variable FrameData : Type.
Implicit Type w : State FrameData.

Lemma hideLoadingResults_hides w :
  openFileProgressBar_shown _ (hideLoadingResults _ w) = false
  /\ loadingResultsLabel_shown _ (hideLoadingResults _ w) = false.
Proof. split; reflexivity. Qed.

Lemma hideLoadingResults_frame w :
  mainPageStack_currentWidget _ (hideLoadingResults _ w)
    = mainPageStack_currentWidget _ w
  /\ loadingResultsErrorLabel_text _ (hideLoadingResults _ w)
    = loadingResultsErrorLabel_text _ w
  /\ loadingResultsErrorLabel_shown _ (hideLoadingResults _ w)
    = loadingResultsErrorLabel_shown _ w.
Proof. repeat split. Qed.

(** C3.  When the parser emits [parsingFailed(errorMessage)], the
    window sets the text of [loadingResultsErrorLabel] to exactly
    [errorMessage] and shows that label, hides the open-file progress
    bar and the loading-results label, and leaves the current widget of
    the main page stack as it was. *)
Theorem parsingFailed_surfaces_error w (errorMessage : string) :
  let w' := deliver _ (parsingFailed _ errorMessage) w in
  loadingResultsErrorLabel_text _ w' = errorMessage
  /\ loadingResultsErrorLabel_shown _ w' = true
  /\ openFileProgressBar_shown _ w' = false
  /\ loadingResultsLabel_shown _ w' = false
  /\ mainPageStack_currentWidget _ w' = mainPageStack_currentWidget _ w.
Proof. cbn. repeat split. Qed.

(** C6.  When the parser emits [parsingFinished], the window makes the
    results page the current widget of the main page stack, makes the
    summary tab the current tab of the results tab widget, and hides
    the open-file progress bar and the loading-results label. *)
Theorem parsingFinished_shows_results w :
  let w' := deliver _ (parsingFinished _) w in
  mainPageStack_currentWidget _ w' = resultsPage
  /\ resultsTabWidget_currentWidget _ w' = summaryTab
  /\ openFileProgressBar_shown _ w' = false
  /\ loadingResultsLabel_shown _ w' = false.
Proof. cbn. repeat split. Qed.

End ParseLifecycle.

(** ** The table model: sizes, cells and headers *)

Section TableModel.
Import Qt SourceCodeModel.
Context `{DA : Data.Api} `{TA : Text.Api}.
Implicit Type m : SourceCodeModel.t.
Local Open Scope Z_scope.

Lemma isValid_rootIndex : isValid rootIndex = false.
Proof. reflexivity. Qed.

Lemma isValid_parent (index : QModelIndex) : isValid (parent index) = false.
Proof. reflexivity. Qed.

(** What [hasIndex] accepts, for the parent of a table index. *)
Lemma hasIndex_parent_true m (index : QModelIndex) :
  hasIndex m index.(row) index.(column) (parent index) = true <->
  0 <= index.(row) < m.(m_numLines)
  /\ 0 <= index.(column)
       < COLUMN_COUNT + Data.numTypes m.(m_selfCosts)
         + Data.numTypes m.(m_inclusiveCosts).
Proof.
  unfold hasIndex, rowCount, columnCount. rewrite isValid_parent.
  destruct (Z.ltb_spec index.(row) 0), (Z.ltb_spec index.(column) 0);
    cbn [orb]; try (split; [discriminate | lia]).
  rewrite andb_true_iff, !Z.ltb_lt. lia.
Qed.

(** An accepted index passes the two guards of [data]. *)
Lemma data_guards m (index : QModelIndex) :
  hasIndex m index.(row) index.(column) (parent index) = true ->
  (index.(row) >? m.(m_numLines)) || (index.(row) <? 0) = false.
Proof.
  intros Hacc. apply hasIndex_parent_true in Hacc.
  rewrite Z.gtb_ltb. apply orb_false_iff. split; apply Z.ltb_ge; lia.
Qed.

(** C7.  For a valid parent index [rowCount] and [columnCount] are both
    0; for the root (an invalid index) [rowCount] is [m_numLines] and
    [columnCount] is [COLUMN_COUNT] plus the number of self-cost types
    plus the number of inclusive-cost types. *)
Theorem counts_of_parent m (parent : QModelIndex) :
  (isValid parent = true ->
     rowCount m parent = 0 /\ columnCount m parent = 0)
  /\ (isValid parent = false ->
        rowCount m parent = m.(m_numLines)
        /\ columnCount m parent =
             COLUMN_COUNT + Data.numTypes m.(m_selfCosts)
             + Data.numTypes m.(m_inclusiveCosts)).
Proof.
  unfold rowCount, columnCount.
  split; intros ->; split; reflexivity.
Qed.

(** C1.  For an index that [hasIndex] accepts, with
    [0 <= row < rowCount()], [data] re-indexes the request: under
    [LineNumberRole], and under [DisplayRole] on the line-number column,
    it is [row + m_lineOffset], which is also [lineForIndex]; under
    [CostRole] on a column [c >= COLUMN_COUNT] it is the self cost of
    type [c - COLUMN_COUNT] at line [row + m_lineOffset] when
    [c - COLUMN_COUNT < numTypes] of the self costs, and otherwise the
    inclusive cost of the type counted from the first inclusive column;
    every self-cost column precedes every inclusive-cost column. *)
Theorem data_is_reindexing m (index : QModelIndex) :
  hasIndex m index.(row) index.(column) (parent index) = true ->
  0 <= index.(row) < rowCount m rootIndex ->
  let line := index.(row) + m.(m_lineOffset) in
  let c := index.(column) in
  let selfTypes := Data.numTypes m.(m_selfCosts) in
  lineForIndex m index = line
  /\ data m index LineNumberRole = VInt line
  /\ (c = SourceCodeLineNumber -> data m index DisplayRole = VInt line)
  /\ (COLUMN_COUNT <= c -> c - COLUMN_COUNT < selfTypes ->
        data m index CostRole
        = VULongLong (Data.cost m.(m_selfCosts) (c - COLUMN_COUNT) line))
  /\ (COLUMN_COUNT <= c -> selfTypes <= c - COLUMN_COUNT ->
        data m index CostRole
        = VULongLong (Data.cost m.(m_inclusiveCosts)
                        (c - COLUMN_COUNT - selfTypes) line))
  /\ (forall c1 c2 : Z,
        c1 - COLUMN_COUNT < selfTypes -> selfTypes <= c2 - COLUMN_COUNT ->
        c1 < c2).
Proof.
  intros Hacc Hrow line c selfTypes.
  pose proof (data_guards m index Hacc) as Hguard.
  unfold data. rewrite Hacc, Hguard. cbn [negb].
  split; [reflexivity |]. split; [reflexivity |].
  split; [| split; [| split]].
  - intros Hc. fold c. rewrite Hc. reflexivity.
  - intros Hc Hself. fold c. fold selfTypes.
    unfold COLUMN_COUNT, SourceCodeColumn, SourceCodeLineNumber in *.
    destruct (Z.eqb_spec c 0); [lia |].
    destruct (Z.eqb_spec c 1); [lia |].
    destruct (Z.ltb_spec (c - 2) selfTypes); [reflexivity | lia].
  - intros Hc Hincl. fold c. fold selfTypes.
    unfold COLUMN_COUNT, SourceCodeColumn, SourceCodeLineNumber in *.
    destruct (Z.eqb_spec c 0); [lia |].
    destruct (Z.eqb_spec c 1); [lia |].
    destruct (Z.ltb_spec (c - 2) selfTypes); [lia | reflexivity].
  - intros c1 c2 H1 H2. lia.
Qed.

(** The part of C8 that concerns [data]: an accepted index under
    [RainbowLineNumberRole]. *)
Lemma data_rainbow m (index : QModelIndex) :
  hasIndex m index.(row) index.(column) (parent index) = true ->
  let line := index.(row) + m.(m_lineOffset) in
  (line ∈ m.(m_validLineNumbers) ->
     data m index RainbowLineNumberRole = VInt line)
  /\ (line ∉ m.(m_validLineNumbers) ->
        data m index RainbowLineNumberRole = VInt (-1)).
Proof.
  intros Hacc line.
  pose proof (data_guards m index Hacc) as Hguard.
  unfold data. rewrite Hacc, Hguard. cbn [negb]. fold line.
  split; intros Hin.
  - rewrite bool_decide_eq_true_2 by exact Hin. reflexivity.
  - rewrite bool_decide_eq_false_2 by exact Hin. reflexivity.
Qed.

(** Outside the source-code column [data] never reads the document. *)
Lemma data_ignores_document m (doc : Text.QTextDocument)
    (index : QModelIndex) (role : Role) :
  index.(column) <> SourceCodeColumn ->
  data (mk m.(m_sysroot) doc m.(m_highlighter) m.(m_selfCosts)
           m.(m_inclusiveCosts) m.(m_numLines) m.(m_validLineNumbers)
           m.(m_lineOffset) m.(m_startLine) m.(m_mainSourceFileName)
           m.(m_highlightLine)) index role
  = data m index role.
Proof.
  intros Hcol. unfold data, hasIndex, rowCount, columnCount. cbn [m_numLines
    m_selfCosts m_inclusiveCosts m_lineOffset m_document m_startLine
    m_mainSourceFileName m_highlightLine m_validLineNumbers].
  destruct (Z.eqb_spec index.(column) SourceCodeColumn); [contradiction |].
  reflexivity.
Qed.

(** C5.  [clear] empties the text document and nothing else: the line
    count, both cost tables, the valid line numbers, the line offset,
    the start line and the file name stay, so [rowCount] of the root is
    still the old line count and [data] still reports the old line
    numbers and costs. *)
Theorem clear_resets_only_document m :
  (clear m).(m_document) = Text.clear m.(m_document)
  /\ ((clear m).(m_numLines) = m.(m_numLines)
      /\ (clear m).(m_selfCosts) = m.(m_selfCosts)
      /\ (clear m).(m_inclusiveCosts) = m.(m_inclusiveCosts)
      /\ (clear m).(m_validLineNumbers) = m.(m_validLineNumbers)
      /\ (clear m).(m_lineOffset) = m.(m_lineOffset)
      /\ (clear m).(m_startLine) = m.(m_startLine)
      /\ (clear m).(m_mainSourceFileName) = m.(m_mainSourceFileName))
  /\ rowCount (clear m) rootIndex = m.(m_numLines)
  /\ (forall index : QModelIndex,
        data (clear m) index LineNumberRole = data m index LineNumberRole)
  /\ (forall (index : QModelIndex) (role : Role),
        index.(column) <> SourceCodeColumn ->
        data (clear m) index role = data m index role).
Proof.
  split; [reflexivity |]. split; [repeat split |].
  split; [reflexivity |]. split.
  - intros index. reflexivity.
  - intros index role Hcol. unfold clear.
    apply data_ignores_document. exact Hcol.
Qed.

End TableModel.

Section Headers.
Import Qt SourceCodeModel.
Context `{DA : Data.Api} `{TA : Text.Api}.
Implicit Type m : SourceCodeModel.t.
Local Open Scope Z_scope.

Implicit Type cols : Columns.


Lemma headerData_in_range cols m (section : Z) :
  0 <= section
    < cols.(enum_COLUMN_COUNT) + Data.numTypes m.(m_selfCosts)
      + Data.numTypes m.(m_inclusiveCosts) ->
  headerData cols m section Horizontal DisplayRole =
    if section =? cols.(enum_SourceCodeColumn) then VString "Source Code"
    else if section =? cols.(enum_SourceCodeLineNumber) then VString "Line"
    else if section - cols.(enum_COLUMN_COUNT)
              <? Data.numTypes m.(m_selfCosts) then
      VString (Data.typeName m.(m_selfCosts)
                 (section - cols.(enum_COLUMN_COUNT))
               +:+ " (self)")
    else
      VString (Data.typeName m.(m_inclusiveCosts)
                 (section - cols.(enum_COLUMN_COUNT)
                  - Data.numTypes m.(m_selfCosts))
               +:+ " (incl.)").
Proof.
  intros Hin. unfold headerData.
  destruct (Z.ltb_spec section 0); [lia |].
  destruct (Z.geb_spec section
              (cols.(enum_COLUMN_COUNT) + Data.numTypes m.(m_selfCosts)
               + Data.numTypes m.(m_inclusiveCosts))); [lia |].
  reflexivity.
Qed.

(** The labels by enumerator, for any declaration of [enum Columns] whose
    two column enumerators differ and precede [COLUMN_COUNT]. *)
Lemma headerData_by_enumerator cols m (section : Z) :
  let selfTypes := Data.numTypes m.(m_selfCosts) in
  let count := cols.(enum_COLUMN_COUNT) in
  0 <= section < count + selfTypes + Data.numTypes m.(m_inclusiveCosts) ->
  cols.(enum_SourceCodeColumn) <> cols.(enum_SourceCodeLineNumber) ->
  cols.(enum_SourceCodeColumn) < count ->
  cols.(enum_SourceCodeLineNumber) < count ->
  (section = cols.(enum_SourceCodeColumn) ->
     headerData cols m section Horizontal DisplayRole = VString "Source Code")
  /\ (section = cols.(enum_SourceCodeLineNumber) ->
        headerData cols m section Horizontal DisplayRole = VString "Line")
  /\ (count <= section < count + selfTypes ->
        headerData cols m section Horizontal DisplayRole
        = VString (Data.typeName m.(m_selfCosts) (section - count)
                   +:+ " (self)"))
  /\ (count <= section -> count + selfTypes <= section ->
        headerData cols m section Horizontal DisplayRole
        = VString (Data.typeName m.(m_inclusiveCosts)
                     (section - count - selfTypes)
                   +:+ " (incl.)")).
Proof.
  intros selfTypes count Hin Hne Hsrc Hline.
  rewrite (headerData_in_range cols m section Hin).
  fold selfTypes. fold count.
  split; [| split; [| split]].
  - intros ->. rewrite Z.eqb_refl. reflexivity.
  - intros ->.
    destruct (Z.eqb_spec cols.(enum_SourceCodeLineNumber)
                cols.(enum_SourceCodeColumn)); [congruence |].
    rewrite Z.eqb_refl. reflexivity.
  - intros Hs.
    destruct (Z.eqb_spec section cols.(enum_SourceCodeColumn)); [lia |].
    destruct (Z.eqb_spec section cols.(enum_SourceCodeLineNumber)); [lia |].
    destruct (Z.ltb_spec (section - count) selfTypes); [reflexivity | lia].
  - intros Hc Hs.
    destruct (Z.eqb_spec section cols.(enum_SourceCodeColumn)); [lia |].
    destruct (Z.eqb_spec section cols.(enum_SourceCodeLineNumber)); [lia |].
    destruct (Z.ltb_spec (section - count) selfTypes); [lia | reflexivity].
Qed.

(** The order of the enumerators decides the labels of sections 0 and 1:
    were the line number declared first, they would be exchanged. *)
Lemma headerData_line_number_first m (section : Z) :
  0 <= section
    < 2 + Data.numTypes m.(m_selfCosts) + Data.numTypes m.(m_inclusiveCosts) ->
  (section = 0 ->
     headerData (mkColumns 1 0 2) m section Horizontal DisplayRole
     = VString "Line")
  /\ (section = 1 ->
        headerData (mkColumns 1 0 2) m section Horizontal DisplayRole
        = VString "Source Code").
Proof.
  intros Hin.
  destruct (headerData_by_enumerator (mkColumns 1 0 2) m section Hin)
    as (Hsrc & Hline & _); cbn; try lia.
  split; assumption.
Qed.


End Headers.

(** ** [setDisassembly] *)

Section SetDisassembly.
Import Qt SourceCodeModel Stated.
Context `{DA : Data.Api} `{TA : Text.Api}.
Implicit Type m : SourceCodeModel.t.
Implicit Type out : DisassemblyOutput.
Implicit Type results : Data.CallerCalleeResults.
Implicit Type st : LoopState.
Implicit Type l : DisassemblyLine.
Local Open Scope Z_scope.

Lemma skipped_false (main : string) l :
  skipped main l = false <->
  l.(sourceFileName) = main /\ l.(sourceCodeLine) <> 0.
Proof.
  unfold skipped. rewrite orb_false_iff, negb_false_iff, String.eqb_eq.
  rewrite Z.eqb_neq. tauto.
Qed.

(** The three projections of one iteration that the statements use. *)
Lemma loopBody_valid out results st l :
  loop_validLineNumbers (loopBody out results st l)
  = if skipped out.(mainSourceFileName) l then st.(loop_validLineNumbers)
    else st.(loop_validLineNumbers) ∪ {[ l.(sourceCodeLine) ]}.
Proof.
  unfold loopBody. destruct (skipped _ l); [reflexivity |].
  destruct (Data.entries results _) as [entry |]; [| reflexivity].
  destruct (Data.offsetMap entry _); reflexivity.
Qed.

Lemma loopBody_max out results st l :
  maxLineNumber (loopBody out results st l)
  = if skipped out.(mainSourceFileName) l then st.(maxLineNumber)
    else Z.max l.(sourceCodeLine) st.(maxLineNumber).
Proof.
  unfold loopBody. destruct (skipped _ l); [reflexivity |].
  assert (Hmx : (if l.(sourceCodeLine) >? st.(maxLineNumber)
                 then l.(sourceCodeLine) else st.(maxLineNumber))
                = Z.max l.(sourceCodeLine) st.(maxLineNumber)).
  { rewrite Z.gtb_ltb. destruct (Z.ltb_spec st.(maxLineNumber) l.(sourceCodeLine)); lia. }
  destruct (Data.entries results _) as [entry |]; [| exact Hmx].
  destruct (Data.offsetMap entry _); exact Hmx.
Qed.

Lemma loopBody_min out results st l :
  minLineNumber (loopBody out results st l)
  = if skipped out.(mainSourceFileName) l then st.(minLineNumber)
    else Z.min l.(sourceCodeLine) st.(minLineNumber).
Proof.
  unfold loopBody. destruct (skipped _ l); [reflexivity |].
  assert (Hmn : (if l.(sourceCodeLine) <? st.(minLineNumber)
                 then l.(sourceCodeLine) else st.(minLineNumber))
                = Z.min l.(sourceCodeLine) st.(minLineNumber)).
  { destruct (Z.ltb_spec l.(sourceCodeLine) st.(minLineNumber)); lia. }
  destruct (Data.entries results _) as [entry |]; [| exact Hmn].
  destruct (Data.offsetMap entry _); exact Hmn.
Qed.

(** The set that the loop collects: what was there, and the line numbers
    of the entries that are not skipped. *)
Lemma loop_collects out results (ls : list DisassemblyLine) st (v : Z) :
  v ∈ loop_validLineNumbers (fold_left (loopBody out results) ls st) <->
  v ∈ st.(loop_validLineNumbers)
  ∨ ∃ l, l ∈ ls ∧ skipped out.(mainSourceFileName) l = false
         ∧ l.(sourceCodeLine) = v.
Proof.
  revert st. induction ls as [| x ls IH]; intros st; cbn [fold_left].
  - split; [auto |]. intros [Hin | (l & Hl & _)]; [exact Hin |].
    inversion Hl.
  - rewrite IH, loopBody_valid. split.
    + intros [Hin | (l & Hl & Hs & Hv)].
      * destruct (skipped _ x) eqn:Hx; [left; exact Hin |].
        apply elem_of_union in Hin as [Hin | Hin]; [left; exact Hin |].
        apply elem_of_singleton in Hin. right. exists x.
        split; [apply list_elem_of_here | auto].
      * right. exists l. split; [apply list_elem_of_further; exact Hl | auto].
    + intros [Hin | (l & Hl & Hs & Hv)].
      * left. destruct (skipped _ x); [exact Hin |].
        apply elem_of_union. left. exact Hin.
      * apply elem_of_cons in Hl as [-> | Hl].
        -- left. rewrite Hs. apply elem_of_union. right.
           apply elem_of_singleton. symmetry. exact Hv.
        -- right. exists l. auto.
Qed.

(** The bounds that the loop computes: they only widen, they enclose
    every entry that is not skipped, and each is either untouched or the
    line number of such an entry. *)
Lemma loop_bounds out results (ls : list DisassemblyLine) st :
  let st' := fold_left (loopBody out results) ls st in
  (st'.(minLineNumber) <= st.(minLineNumber)
   /\ st.(maxLineNumber) <= st'.(maxLineNumber))
  /\ (forall l, l ∈ ls -> skipped out.(mainSourceFileName) l = false ->
        st'.(minLineNumber) <= l.(sourceCodeLine) <= st'.(maxLineNumber))
  /\ (st'.(minLineNumber) = st.(minLineNumber)
      \/ exists l, l ∈ ls /\ skipped out.(mainSourceFileName) l = false
                   /\ l.(sourceCodeLine) = st'.(minLineNumber))
  /\ (st'.(maxLineNumber) = st.(maxLineNumber)
      \/ exists l, l ∈ ls /\ skipped out.(mainSourceFileName) l = false
                   /\ l.(sourceCodeLine) = st'.(maxLineNumber)).
Proof.
  revert st. induction ls as [| x ls IH]; intros st; cbn [fold_left].
  - cbn zeta. split; [lia |]. split; [| auto].
    intros l Hl. inversion Hl.
  - specialize (IH (loopBody out results st x)). cbn zeta in IH |- *.
    destruct IH as ((Hmn & Hmx) & Hencl & Hmin & Hmax).
    rewrite loopBody_min in Hmn, Hmin. rewrite loopBody_max in Hmx, Hmax.
    set (st' := fold_left (loopBody out results) ls (loopBody out results st x)) in *.
    destruct (skipped out.(mainSourceFileName) x) eqn:Hx.
    + split; [lia |]. split; [| split].
      * intros l Hl Hs. apply elem_of_cons in Hl as [-> | Hl];
          [congruence | auto].
      * destruct Hmin as [Hmin | (l & Hl & Hs & Hv)]; [left; exact Hmin |].
        right. exists l. split; [apply list_elem_of_further; exact Hl | auto].
      * destruct Hmax as [Hmax | (l & Hl & Hs & Hv)]; [left; exact Hmax |].
        right. exists l. split; [apply list_elem_of_further; exact Hl | auto].
    + split; [lia |]. split; [| split].
      * intros l Hl Hs. apply elem_of_cons in Hl as [-> | Hl];
          [lia | auto].
      * destruct Hmin as [Hmin | (l & Hl & Hs & Hv)].
        -- destruct (Z.min_spec x.(sourceCodeLine) st.(minLineNumber))
             as [[_ Hm] | [_ Hm]].
           ++ right. exists x. split; [apply list_elem_of_here |].
              split; [exact Hx | lia].
           ++ left. lia.
        -- right. exists l.
           split; [apply list_elem_of_further; exact Hl | auto].
      * destruct Hmax as [Hmax | (l & Hl & Hs & Hv)].
        -- destruct (Z.max_spec x.(sourceCodeLine) st.(maxLineNumber))
             as [[_ Hm] | [_ Hm]].
           ++ left. lia.
           ++ right. exists x. split; [apply list_elem_of_here |].
              split; [exact Hx | lia].
        -- right. exists l.
           split; [apply list_elem_of_further; exact Hl | auto].
Qed.

Lemma ofMainFile_skipped out l :
  ofMainFile out l <->
  l ∈ out.(disassemblyLines) /\ skipped out.(mainSourceFileName) l = false.
Proof. unfold ofMainFile. rewrite skipped_false. tauto. Qed.

(** When the file opens, the call returns exactly when both assertions
    pass, and then the collected set and the bounds are the loop's. *)
Lemma setDisassembly_opened fs out results m (sourceCode : string) :
  QString.isEmpty out.(mainSourceFileName) = false ->
  fs (m.(m_sysroot) +:+ separator +:+ out.(mainSourceFileName))
    = Some sourceCode ->
  let st := runLoop out results in
  (0 < st.(minLineNumber) < st.(maxLineNumber) ->
     exists m', setDisassembly fs out results m = Returned m'
                /\ m'.(m_validLineNumbers) = st.(loop_validLineNumbers)
                /\ m'.(m_lineOffset) = st.(minLineNumber) - 1
                /\ m'.(m_numLines)
                   = st.(maxLineNumber) - (st.(minLineNumber) - 2))
  /\ (~ 0 < st.(minLineNumber) < st.(maxLineNumber) ->
        exists condition,
          setDisassembly fs out results m = AssertionFailed condition).
Proof.
  intros Hname Hfile st. unfold setDisassembly. rewrite Hname, Hfile.
  fold st. rewrite Z.gtb_ltb.
  destruct (Z.ltb_spec 0 st.(minLineNumber)) as [Hpos | Hneg]; cbn [negb].
  - destruct (Z.ltb_spec st.(minLineNumber) st.(maxLineNumber)) as [Hlt | Hge];
      cbn [negb].
    + split; [| intros Hno; exfalso; apply Hno; lia].
      intros _. eexists. split; [reflexivity |]. repeat split.
    + split; [intros Hyes; lia |]. intros _. eexists. reflexivity.
  - split; [intros Hyes; lia |]. intros _. eexists. reflexivity.
Qed.

(** C2.  If [mainSourceFileName] is empty, or the file at
    [m_sysroot + QDir::separator() + mainSourceFileName] cannot be
    opened, [setDisassembly] returns with [m_numLines = 0] and both cost
    tables reset to the empty table, so [rowCount] of the root is 0,
    while the text document, [m_validLineNumbers] and
    [m_mainSourceFileName] are what they were before the call. *)
Theorem setDisassembly_without_source fs out results m :
  QString.isEmpty out.(mainSourceFileName) = true
  \/ fs (m.(m_sysroot) +:+ separator +:+ out.(mainSourceFileName)) = None ->
  exists m',
    setDisassembly fs out results m = Returned m'
    /\ m'.(m_numLines) = 0
    /\ m'.(m_selfCosts) = Data.Costs_init
    /\ m'.(m_inclusiveCosts) = Data.Costs_init
    /\ rowCount m' rootIndex = 0
    /\ m'.(m_document) = m.(m_document)
    /\ m'.(m_validLineNumbers) = m.(m_validLineNumbers)
    /\ m'.(m_mainSourceFileName) = m.(m_mainSourceFileName).
Proof.
  intros Hcase. unfold setDisassembly.
  destruct (QString.isEmpty out.(mainSourceFileName)) eqn:Hname.
  - eexists. split; [reflexivity |]. repeat split.
  - destruct Hcase as [Habs | Hfile]; [discriminate |].
    rewrite Hfile. eexists. split; [reflexivity |]. repeat split.
Qed.

(** C8.  For an index that [hasIndex] accepts, [data] under
    [RainbowLineNumberRole] is [row + m_lineOffset] when that line number
    belongs to [m_validLineNumbers], and -1 otherwise; after a
    [setDisassembly] that read the source file, [m_validLineNumbers] is
    the set of the [sourceCodeLine] values of the disassembly lines of
    the main source file. *)
Theorem rainbow_line_numbers :
  (forall m (index : QModelIndex),
      hasIndex m index.(row) index.(column) (parent index) = true ->
      let line := index.(row) + m.(m_lineOffset) in
      (line ∈ m.(m_validLineNumbers) ->
         data m index RainbowLineNumberRole = VInt line)
      /\ (line ∉ m.(m_validLineNumbers) ->
            data m index RainbowLineNumberRole = VInt (-1)))
  /\ (forall fs out results m m',
        fileOpens fs out m ->
        setDisassembly fs out results m = Returned m' ->
        forall v : Z,
          v ∈ m'.(m_validLineNumbers) <->
          exists l, ofMainFile out l /\ l.(sourceCodeLine) = v).
Proof.
  split; [exact data_rainbow |].
  intros fs out results m m' (Hname & sourceCode & Hfile) Hret v.
  destruct (setDisassembly_opened fs out results m sourceCode Hname Hfile)
    as (Hyes & Hno).
  destruct (decide (0 < minLineNumber (runLoop out results)
                      < maxLineNumber (runLoop out results))) as [Hok | Hbad].
  - destruct (Hyes Hok) as (m'' & Hret' & Hvalid & _).
    rewrite Hret in Hret'. injection Hret' as <-.
    rewrite Hvalid. unfold runLoop. rewrite loop_collects.
    cbn [loopInit loop_validLineNumbers]. split.
    + intros [Hin | (l & Hl & Hs & Hv)].
      * exfalso. exact (not_elem_of_empty v Hin).
      * exists l. split; [apply ofMainFile_skipped; auto | exact Hv].
    + intros (l & Hl & Hv). right. exists l.
      apply ofMainFile_skipped in Hl as (Hl & Hs). auto.
  - destruct (Hno Hbad) as (condition & Hfail). congruence.
Qed.

(** What passing both assertions says about the entries, for line numbers
    that fit an [int]. *)
Lemma assertions_pass_iff out results :
  intLines out ->
  let st := runLoop out results in
  0 < st.(minLineNumber) < st.(maxLineNumber) <->
  noNegativeLine out /\ twoDistinctPositiveLines out.
Proof.
  intros Hint st.
  destruct (loop_bounds out results out.(disassemblyLines) (loopInit results))
    as ((Hmn & Hmx) & Hencl & Hmin & Hmax).
  fold (runLoop out results) in Hmn, Hmx, Hencl, Hmin, Hmax. fold st in Hmn, Hmx, Hencl, Hmin, Hmax.
  cbn [loopInit minLineNumber maxLineNumber] in Hmn, Hmx, Hmin, Hmax.
  assert (Hrange : forall l, l ∈ out.(disassemblyLines) ->
                     l.(sourceCodeLine) <= INT_MAX).
  { intros l Hl. destruct (Hint l Hl) as [_ Hle]. exact Hle. }
  split.
  - intros [Hpos Hlt].
    assert (Hhi : exists b, ofMainFile out b
                            /\ b.(sourceCodeLine) = st.(maxLineNumber)).
    { destruct Hmax as [Hmax | (b & Hb & Hs & Hv)]; [lia |].
      exists b. split; [apply ofMainFile_skipped; auto | exact Hv]. }
    destruct Hhi as (b & Hb & Hbv).
    assert (Hlo : exists a, ofMainFile out a
                            /\ a.(sourceCodeLine) = st.(minLineNumber)).
    { destruct Hmin as [Hmin | (a & Ha & Hs & Hv)].
      - exfalso. destruct Hb as (Hb & _). specialize (Hrange b Hb). lia.
      - exists a. split; [apply ofMainFile_skipped; auto | exact Hv]. }
    destruct Hlo as (a & Ha & Hav).
    split.
    + intros l Hl. apply ofMainFile_skipped in Hl as (Hl & Hs).
      specialize (Hencl l Hl Hs). lia.
    + exists a, b. repeat split; try (apply Ha); try (apply Hb); lia.
  - intros (Hnoneg & a & b & Ha & Hb & Hapos & Hbpos & Hne).
    pose proof Ha as Ha'. pose proof Hb as Hb'.
    apply ofMainFile_skipped in Ha' as (Hain & Has).
    apply ofMainFile_skipped in Hb' as (Hbin & Hbs).
    pose proof (Hencl a Hain Has) as Hea.
    pose proof (Hencl b Hbin Hbs) as Heb.
    split; [| lia].
    destruct Hmin as [Hmin | (l & Hl & Hs & Hv)].
    + rewrite Hmin. unfold INT_MAX. lia.
    + rewrite <- Hv. apply Hnoneg. apply ofMainFile_skipped. auto.
Qed.

(** With the file open, the call returns exactly when the loop's bounds
    pass both assertions. *)
Lemma assertionsHold_iff_bounds fs out results m :
  fileOpens fs out m ->
  let st := runLoop out results in
  (assertionsHold fs out results m <->
     0 < st.(minLineNumber) < st.(maxLineNumber))
  /\ (~ 0 < st.(minLineNumber) < st.(maxLineNumber) ->
        exists condition,
          setDisassembly fs out results m = AssertionFailed condition).
Proof.
  intros (Hname & sourceCode & Hfile) st.
  destruct (setDisassembly_opened fs out results m sourceCode Hname Hfile)
    as (Hyes & Hno).
  fold st in Hyes, Hno. split; [| exact Hno].
  unfold assertionsHold. split.
  - intros (m' & Hret).
    destruct (decide (0 < st.(minLineNumber) < st.(maxLineNumber)))
      as [Hok | Hbad]; [exact Hok |].
    destruct (Hno Hbad) as (condition & Hfail). congruence.
  - intros Hok. destruct (Hyes Hok) as (m' & Hret & _). exists m'. exact Hret.
Qed.

(** C4, as amended.  When the source file opens (and the line numbers
    fit an [int]), both assertions of [setDisassembly] hold if and only if
    no entry of the main source file has a negative [sourceCodeLine] and
    at least two entries of the main source file have distinct positive
    [sourceCodeLine]; with zero or only one distinct line number among
    those entries, an assertion fails. *)
Theorem assertions_hold_iff fs out results m :
  fileOpens fs out m ->
  intLines out ->
  (assertionsHold fs out results m <->
     noNegativeLine out /\ twoDistinctPositiveLines out)
  /\ (atMostOneLineNumber out ->
        exists condition,
          setDisassembly fs out results m = AssertionFailed condition).
Proof.
  intros Hopen Hint.
  destruct (assertionsHold_iff_bounds fs out results m Hopen) as (Hret & Hno).
  pose proof (assertions_pass_iff out results Hint) as Hiff. cbn zeta in Hiff.
  split.
  - rewrite Hret. exact Hiff.
  - intros Hone. apply Hno. intros Hok. apply Hiff in Hok.
    destruct Hok as (_ & a & b & Ha & Hb & _ & _ & Hne).
    apply Hne. apply Hone; assumption.
Qed.

(** When no line number is negative, the criterion is the one of C4 as it
    was stated. *)
Lemma assertions_hold_iff_nonnegative fs out results m :
  fileOpens fs out m ->
  intLines out ->
  (forall l, l ∈ out.(disassemblyLines) -> 0 <= l.(sourceCodeLine)) ->
  assertionsHold fs out results m <-> twoDistinctPositiveLines out.
Proof.
  intros Hopen Hint Hnonneg.
  destruct (assertionsHold_iff_bounds fs out results m Hopen) as (Hret & _).
  pose proof (assertions_pass_iff out results Hint) as Hiff. cbn zeta in Hiff.
  rewrite Hret, Hiff. split; [tauto |]. intros Htwo. split; [| exact Htwo].
  intros l (Hl & _ & Hnz). specialize (Hnonneg l Hl). lia.
Qed.

End SetDisassembly.

(** ** The statements on the reference instances *)

Section OnReference.
Import Qt SourceCodeModel Stated Reference.
Local Open Scope Z_scope.

Lemma negativeLine_opens : fileOpens disk negativeLine shown.
Proof. split; [reflexivity |]. eexists. reflexivity. Qed.

Lemma negativeLine_intLines : intLines negativeLine.
Proof.
  intros l Hl. cbn in Hl.
  repeat (apply elem_of_cons in Hl as [-> | Hl]);
    [unfold isInt, INT_MIN, INT_MAX; cbn; lia .. | inversion Hl].
Qed.

Lemma negativeLine_twoDistinctPositiveLines :
  twoDistinctPositiveLines negativeLine.
Proof.
  exists (line 16 "main.cpp" 3), (line 24 "main.cpp" 5).
  unfold ofMainFile. cbn.
  repeat split; try discriminate; try lia;
    apply list_elem_of_In; cbn; tauto.
Qed.

Lemma negativeLine_fails :
  setDisassembly disk negativeLine noResults shown
  = AssertionFailed "minLineNumber > 0".
Proof. vm_compute. reflexivity. Qed.

(** C4, as it was stated, fails: the file opens and two entries of
    [main.cpp] have the distinct positive line numbers 3 and 5, yet the
    entry with line number -1 makes [minLineNumber > 0] fail. *)
Lemma assertions_not_iff_two_positive_lines :
  fileOpens disk negativeLine shown
  /\ intLines negativeLine
  /\ ~ (assertionsHold disk negativeLine noResults shown <->
          twoDistinctPositiveLines negativeLine).
Proof.
  split; [exact negativeLine_opens |]. split; [exact negativeLine_intLines |].
  intros [_ Hback].
  destruct (Hback negativeLine_twoDistinctPositiveLines) as (m' & Hret).
  rewrite negativeLine_fails in Hret. discriminate Hret.
Qed.

Lemma twoLines_opens : fileOpens disk twoLines shown.
Proof. split; [reflexivity |]. eexists. reflexivity. Qed.

Lemma twoLines_intLines : intLines twoLines.
Proof.
  intros l Hl. cbn in Hl.
  repeat (apply elem_of_cons in Hl as [-> | Hl]);
    [unfold isInt, INT_MIN, INT_MAX; cbn; lia .. | inversion Hl].
Qed.

Lemma twoLines_noNegativeLine : noNegativeLine twoLines.
Proof.
  intros l (Hl & Hfile & Hnz). cbn in Hl.
  repeat (apply elem_of_cons in Hl as [-> | Hl]);
    [cbn; lia | discriminate Hfile | cbn; lia | inversion Hl].
Qed.

Lemma twoLines_twoDistinctPositiveLines : twoDistinctPositiveLines twoLines.
Proof.
  exists (line 16 "main.cpp" 3), (line 24 "main.cpp" 5).
  unfold ofMainFile. cbn.
  repeat split; try discriminate; try lia;
    apply list_elem_of_In; cbn; tauto.
Qed.

Lemma data_is_reindexing_witness :
  hasIndex shown 1 2 (parent (mkIndex 1 2 true)) = true
  /\ 0 <= 1 < rowCount shown rootIndex
  /\ data shown (mkIndex 1 2 true) LineNumberRole = VInt 3
  /\ data shown (mkIndex 1 2 true) CostRole = VULongLong 4.
Proof.
  assert (Hacc : hasIndex shown 1 2 (parent (mkIndex 1 2 true)) = true)
    by reflexivity.
  assert (Hrow : 0 <= 1 < rowCount shown rootIndex) by (cbn; lia).
  split; [exact Hacc |]. split; [exact Hrow |].
  destruct (data_is_reindexing shown (mkIndex 1 2 true) Hacc Hrow)
    as (_ & Hline & _ & Hself & _).
  split; [exact Hline |]. apply Hself; unfold COLUMN_COUNT; cbn; lia.
Defined.

Lemma setDisassembly_without_source_witness :
  disk ("/sysroot" +:+ separator +:+ "gone.cpp") = None
  /\ exists m',
       setDisassembly disk missingFile noResults shown = Returned m'
       /\ m'.(m_numLines) = 0
       /\ rowCount m' rootIndex = 0
       /\ m'.(m_validLineNumbers) = shown.(m_validLineNumbers).
Proof.
  split; [reflexivity |].
  destruct (setDisassembly_without_source disk missingFile noResults shown
              (or_intror eq_refl))
    as (m' & Hret & Hnum & _ & _ & Hrows & _ & Hvalid & _).
  exists m'. repeat split; assumption.
Defined.

Lemma assertions_hold_iff_witness :
  fileOpens disk twoLines shown
  /\ intLines twoLines
  /\ assertionsHold disk twoLines noResults shown.
Proof.
  split; [exact twoLines_opens |]. split; [exact twoLines_intLines |].
  apply (assertions_hold_iff disk twoLines noResults shown
           twoLines_opens twoLines_intLines).
  split; [exact twoLines_noNegativeLine | exact twoLines_twoDistinctPositiveLines].
Defined.

Lemma clear_resets_only_document_witness :
  column (mkIndex 1 1 true) <> SourceCodeColumn
  /\ data (clear shown) (mkIndex 1 1 true) DisplayRole
     = data shown (mkIndex 1 1 true) DisplayRole.
Proof.
  assert (Hcol : column (mkIndex 1 1 true) <> SourceCodeColumn)
    by (cbn; unfold SourceCodeColumn; lia).
  split; [exact Hcol |].
  destruct (clear_resets_only_document shown) as (_ & _ & _ & _ & Hdata).
  apply Hdata. exact Hcol.
Defined.

Lemma counts_of_parent_witness :
  isValid (mkIndex 0 0 true) = true
  /\ rowCount shown (mkIndex 0 0 true) = 0
  /\ columnCount shown (mkIndex 0 0 true) = 0
  /\ isValid rootIndex = false
  /\ rowCount shown rootIndex = 4
  /\ columnCount shown rootIndex = 4.
Proof.
  split; [reflexivity |].
  destruct (counts_of_parent shown (mkIndex 0 0 true)) as (Hvalid & _).
  destruct (Hvalid eq_refl) as (Hrows & Hcols).
  split; [exact Hrows |]. split; [exact Hcols |].
  split; [reflexivity |].
  destruct (counts_of_parent shown rootIndex) as (_ & Hroot).
  destruct (Hroot eq_refl) as (Hrows' & Hcols').
  split; [exact Hrows' | exact Hcols'].
Defined.

Lemma rainbow_line_numbers_witness :
  hasIndex shown 1 3 (parent (mkIndex 1 3 true)) = true
  /\ data shown (mkIndex 1 3 true) RainbowLineNumberRole = VInt 3
  /\ hasIndex shown 2 3 (parent (mkIndex 2 3 true)) = true
  /\ data shown (mkIndex 2 3 true) RainbowLineNumberRole = VInt (-1)
  /\ fileOpens disk twoLines shown
  /\ exists m',
       setDisassembly disk twoLines noResults shown = Returned m'
       /\ 5 ∈ m'.(m_validLineNumbers).
Proof.
  destruct rainbow_line_numbers as (Hdata & Hset).
  split; [reflexivity |]. split.
  { apply (Hdata shown (mkIndex 1 3 true) eq_refl). cbn.
    apply elem_of_union. left. apply elem_of_singleton. reflexivity. }
  split; [reflexivity |]. split.
  { apply (Hdata shown (mkIndex 2 3 true) eq_refl). cbn.
    intros Hin. apply elem_of_union in Hin as [Hin | Hin];
      apply elem_of_singleton in Hin; discriminate Hin. }
  split; [exact twoLines_opens |].
  destruct twoLines_twoDistinctPositiveLines
    as (a & b & Ha & Hb & Hapos & Hbpos & Hne).
  eexists. split; [vm_compute; reflexivity |].
  eapply (Hset disk twoLines noResults shown _ twoLines_opens).
  - vm_compute. reflexivity.
  - exists (line 24 "main.cpp" 5). split; [| reflexivity].
    unfold ofMainFile. cbn. repeat split; try discriminate.
    apply list_elem_of_In. cbn. tauto.
Defined.


End OnReference.

(** * Further properties *)

(** ** The time string *)

Section TimeString.
Import MainWindow Stated Reading.
Local Open Scope N_scope.

Lemma formatTimeString_under_minute (ns : N) :
  ns < 60 * 1000000000 ->
  formatTimeString ns =
    twoDigits (ns / 1000000000) +:+ "."
    +:+ threeDigits ((ns / 1000000) mod 1000) +:+ "s".
Proof.
  intros Hns. unfold formatTimeString.
  assert (Hts : ns / 1000000000 < 60)
    by (apply N.Div0.div_lt_upper_bound; lia).
  set (ts := ns / 1000000000) in *.
  assert (Hmin : ts / 60 = 0) by (apply N.div_small; exact Hts).
  rewrite Hmin. change (0 / 60 / 24) with 0. change (0 / 60 mod 24) with 0.
  change (0 mod 60) with 0. rewrite optional_zero. simpl String.append at 1.
  rewrite (N.mod_small ts 60) by exact Hts.
  rewrite format_twoDigits by lia.
  rewrite format_threeDigits by (apply N.mod_lt; lia).
  reflexivity.
Qed.

Lemma readShortTime_digits (s ms : N) :
  s < 100 -> ms < 1000 ->
  readShortTime (twoDigits s +:+ "." +:+ threeDigits ms +:+ "s")
  = Some (s, ms).
Proof.
  intros Hs Hms.
  assert (Htwo : allBelow 100
            (fun k => (10 * digitValue (digitChar (k / 10))
                       + digitValue (digitChar (k mod 10)) =? k)) = true)
    by (vm_compute; reflexivity).
  assert (Hthree : allBelow 1000
            (fun k => (100 * digitValue (digitChar (k / 100))
                       + 10 * digitValue (digitChar ((k mod 100) / 10))
                       + digitValue (digitChar ((k mod 100) mod 10)) =? k))
            = true)
    by (vm_compute; reflexivity).
  pose proof (allBelow_spec 100 _ Htwo s Hs) as H2.
  pose proof (allBelow_spec 1000 _ Hthree ms Hms) as H3.
  cbv beta in H2, H3. apply N.eqb_eq in H2, H3.
  unfold twoDigits, threeDigits, twoDigits.
  cbv beta iota fix delta [String.append readShortTime].
  rewrite H2, H3. reflexivity.
Qed.

Lemma millis_split (ns : N) :
  ns / 1000000 = ns / 1000000000 * 1000 + (ns / 1000000) mod 1000.
Proof.
  change 1000000000 with (1000000 * 1000).
  rewrite <- N.Div0.div_div.
  rewrite (N.div_mod (ns / 1000000) 1000) at 1 by discriminate. lia.
Qed.

(** X1.  [formatTimeString] cuts a duration down to whole milliseconds:
    it gives the same string for [ns] and for [ns] with everything below
    the millisecond removed. *)
Theorem formatTimeString_truncates_to_milliseconds (ns : N) :
  formatTimeString ns = formatTimeString (ns / 1000000 * 1000000).
Proof.
  unfold formatTimeString.
  assert (Hms : ns / 1000000 * 1000000 / 1000000 = ns / 1000000)
    by (apply N.div_mul; discriminate).
  assert (Hs : ns / 1000000 * 1000000 / 1000000000 = ns / 1000000000).
  { change 1000000000 with (1000000 * 1000).
    rewrite <- !N.Div0.div_div, Hms. reflexivity. }
  rewrite Hms, Hs. reflexivity.
Qed.

(** X2.  Below one minute the string can be read back: its digits give
    the seconds and the milliseconds of the duration, so two durations
    below one minute have the same string only when they agree down to the
    millisecond. *)
Theorem formatTimeString_short_round_trip :
  (forall ns : N,
      ns < 60 * 1000000000 ->
      readShortTime (formatTimeString ns)
      = Some (ns / 1000000000, (ns / 1000000) mod 1000))
  /\ (forall a b : N,
        a < 60 * 1000000000 -> b < 60 * 1000000000 ->
        formatTimeString a = formatTimeString b ->
        a / 1000000 = b / 1000000).
Proof.
  assert (Hread : forall ns : N,
             ns < 60 * 1000000000 ->
             readShortTime (formatTimeString ns)
             = Some (ns / 1000000000, (ns / 1000000) mod 1000)).
  { intros ns Hns. rewrite formatTimeString_under_minute by exact Hns.
    apply readShortTime_digits.
    - assert (ns / 1000000000 < 60)
        by (apply N.Div0.div_lt_upper_bound; lia). lia.
    - apply N.mod_lt. discriminate. }
  split; [exact Hread |].
  intros a b Ha Hb Heq.
  pose proof (Hread a Ha) as Ra. pose proof (Hread b Hb) as Rb.
  rewrite Heq, Rb in Ra. injection Ra as Hs Hms.
  rewrite (millis_split a), (millis_split b). lia.
Qed.

Lemma formatTimeString_short_round_trip_witness :
  1234567890 < 60 * 1000000000
  /\ readShortTime (formatTimeString 1234567890) = Some (1, 234).
Proof.
  split; [reflexivity |].
  exact (proj1 formatTimeString_short_round_trip 1234567890 eq_refl).
Defined.

Lemma optional_positive (n : N) :
  0 < n -> n < 100 -> optional n = twoDigits n +:+ ":".
Proof.
  intros Hpos Hn. unfold optional.
  assert (H : (0 <? n) = true) by (apply N.ltb_lt; exact Hpos).
  rewrite H, format_twoDigits by exact Hn. reflexivity.
Qed.

(** X3.  When the days (below 100), the hours and the minutes of a
    duration are all non-zero, the string has every field, each of two
    digits and followed by a colon, before the seconds and
    milliseconds. *)
Theorem formatTimeString_all_fields (ns : N) :
  let totalSeconds := ns / 1000000000 in
  let days := totalSeconds / 86400 in
  let hours := (totalSeconds / 3600) mod 24 in
  let minutes := (totalSeconds / 60) mod 60 in
  0 < days < 100 -> 0 < hours -> 0 < minutes ->
  formatTimeString ns =
    twoDigits days +:+ ":" +:+ twoDigits hours +:+ ":"
    +:+ twoDigits minutes +:+ ":" +:+ twoDigits (totalSeconds mod 60)
    +:+ "." +:+ threeDigits ((ns / 1000000) mod 1000) +:+ "s".
Proof.
  intros totalSeconds days hours minutes Hd Hh Hm.
  unfold formatTimeString. fold totalSeconds.
  assert (Edays : totalSeconds / 60 / 60 / 24 = days)
    by (unfold days; rewrite !N.Div0.div_div; reflexivity).
  assert (Ehours : (totalSeconds / 60 / 60) mod 24 = hours)
    by (unfold hours; rewrite !N.Div0.div_div; reflexivity).
  rewrite Edays, Ehours. fold minutes.
  assert (hours < 24) by (apply N.mod_lt; discriminate).
  assert (minutes < 60) by (apply N.mod_lt; discriminate).
  assert (totalSeconds mod 60 < 60) by (apply N.mod_lt; discriminate).
  rewrite !optional_positive by lia.
  rewrite format_twoDigits by lia.
  rewrite format_threeDigits by (apply N.mod_lt; discriminate).
  reflexivity.
Qed.

Lemma formatTimeString_all_fields_witness :
  formatTimeString 90061001000000 = "01:01:01:01.001s"%string.
Proof.
  apply (formatTimeString_all_fields 90061001000000);
    [split; reflexivity | reflexivity | reflexivity].
Defined.

End TimeString.

(** ** Runs of the main window *)

Section WindowRuns.
Import MainWindow Runs.
Variable FrameData : Type.
Implicit Type w : State FrameData.
Implicit Type s : Signal FrameData.

Lemma deliver_title_requests s w :
  windowTitle _ (deliver _ s w) = windowTitle _ w
  /\ parseRequests _ (deliver _ s w) = parseRequests _ w.
Proof. destruct s; split; reflexivity. Qed.

Lemma deliver_error_label s w :
  isFailure _ s = false ->
  loadingResultsErrorLabel_shown _ (deliver _ s w)
  = loadingResultsErrorLabel_shown _ w.
Proof. destruct s; intros Hs; try reflexivity. discriminate Hs. Qed.

Lemma deliverAll_app (ss ts : list (Signal FrameData)) w :
  deliverAll _ (ss ++ ts) w = deliverAll _ ts (deliverAll _ ss w).
Proof. unfold deliverAll. apply fold_left_app. Qed.

Lemma deliverAll_keeps (ss : list (Signal FrameData)) w :
  Forall (fun s => isFailure _ s = false) ss ->
  windowTitle _ (deliverAll _ ss w) = windowTitle _ w
  /\ parseRequests _ (deliverAll _ ss w) = parseRequests _ w
  /\ loadingResultsErrorLabel_shown _ (deliverAll _ ss w)
     = loadingResultsErrorLabel_shown _ w.
Proof.
  intros Hall. revert w.
  induction Hall as [| s ss Hs _ IH]; intros w; [repeat split |].
  change (deliverAll _ (s :: ss) w) with (deliverAll _ ss (deliver _ s w)).
  destruct (IH (deliver _ s w)) as (Ht & Hr & He).
  destruct (deliver_title_requests s w) as (Ht' & Hr').
  rewrite Ht, Hr, He, Ht', Hr'. rewrite (deliver_error_label s w Hs).
  repeat split.
Qed.

(** X4.  What no parser signal does: none changes the window title or
    starts a parse, none shows the progress bar or the loading label, the
    page of the main stack changes only on [parsingFinished], and the
    error label is shown afterwards exactly when the signal is
    [parsingFailed] or the label was shown before. *)
Theorem deliver_never s w :
  windowTitle _ (deliver _ s w) = windowTitle _ w
  /\ parseRequests _ (deliver _ s w) = parseRequests _ w
  /\ (openFileProgressBar_shown _ (deliver _ s w) = true ->
        openFileProgressBar_shown _ w = true)
  /\ (loadingResultsLabel_shown _ (deliver _ s w) = true ->
        loadingResultsLabel_shown _ w = true)
  /\ (mainPageStack_currentWidget _ (deliver _ s w)
        <> mainPageStack_currentWidget _ w ->
      s = parsingFinished _)
  /\ (loadingResultsErrorLabel_shown _ (deliver _ s w) = true <->
        isFailure _ s = true \/ loadingResultsErrorLabel_shown _ w = true).
Proof.
  destruct s; cbn; repeat split; try tauto; try discriminate; auto;
    try (intros [Habs | Hshown]; [discriminate Habs | exact Hshown]).
Qed.

(** X5.  A successful load: after [openFile path], any signals that are
    not failures, and then [parsingFinished], the window shows the
    results page on its summary tab, the progress bar, the loading label
    and the error label are hidden, the title is the file name followed
    by " - Hotspot", and exactly one parse was requested, for [path]. *)
Theorem successful_load (path : string) (ss : list (Signal FrameData)) w :
  Forall (fun s => isFailure _ s = false) ss ->
  let w' := deliverAll _ (ss ++ [parsingFinished _]) (openFile _ path w) in
  mainPageStack_currentWidget _ w' = resultsPage
  /\ resultsTabWidget_currentWidget _ w' = summaryTab
  /\ openFileProgressBar_shown _ w' = false
  /\ loadingResultsLabel_shown _ w' = false
  /\ loadingResultsErrorLabel_shown _ w' = false
  /\ windowTitle _ w' = fileName path +:+ " - Hotspot"
  /\ parseRequests _ w' = parseRequests _ w ++ [path].
Proof.
  intros Hall w'. unfold w'. rewrite deliverAll_app.
  destruct (deliverAll_keeps ss (openFile _ path w) Hall) as (Ht & Hr & He).
  set (w1 := deliverAll _ ss (openFile _ path w)) in *.
  change (deliverAll _ [parsingFinished _] w1)
    with (deliver _ (parsingFinished _) w1).
  cbn. rewrite Ht, Hr, He. repeat split.
Qed.

(** X6.  A failed load and a second attempt: after [openFile] and
    [parsingFailed(e)] the error label is shown with text [e], the
    progress bar is hidden and the page is the one from before; a
    following [openFile] hides the error label again and shows the
    progress bar and the loading label, while the label keeps the old
    text [e]. *)
Theorem failed_load_then_retry (path again e : string) w :
  let failed := deliver _ (parsingFailed _ e) (openFile _ path w) in
  let retried := openFile _ again failed in
  (loadingResultsErrorLabel_shown _ failed = true
   /\ loadingResultsErrorLabel_text _ failed = e
   /\ openFileProgressBar_shown _ failed = false
   /\ loadingResultsLabel_shown _ failed = false
   /\ mainPageStack_currentWidget _ failed = mainPageStack_currentWidget _ w
   /\ warnings _ failed = warnings _ w ++ [e])
  /\ (loadingResultsErrorLabel_shown _ retried = false
      /\ loadingResultsErrorLabel_text _ retried = e
      /\ openFileProgressBar_shown _ retried = true
      /\ loadingResultsLabel_shown _ retried = true
      /\ windowTitle _ retried = fileName again +:+ " - Hotspot"
      /\ parseRequests _ retried = (parseRequests _ w ++ [path]) ++ [again]).
Proof. cbn. repeat split. Qed.


End WindowRuns.

Lemma successful_load_witness :
  Forall (fun s => Runs.isFailure unit s = false)
    [MainWindow.bottomUpDataAvailable unit tt;
     MainWindow.summaryDataAvailable unit
       (MainWindow.mkSummaryData 65000000000 4 1 1000 "ls")]
  /\ MainWindow.mainPageStack_currentWidget unit
       (Runs.deliverAll unit
          ([MainWindow.bottomUpDataAvailable unit tt;
            MainWindow.summaryDataAvailable unit
              (MainWindow.mkSummaryData 65000000000 4 1 1000 "ls")]
           ++ [MainWindow.parsingFinished unit])
          (MainWindow.openFile unit "/tmp/perf.data" Reference.blank))
     = MainWindow.resultsPage.
Proof.
  assert (Hall : Forall (fun s => Runs.isFailure unit s = false)
            [MainWindow.bottomUpDataAvailable unit tt;
             MainWindow.summaryDataAvailable unit
               (MainWindow.mkSummaryData 65000000000 4 1 1000 "ls")])
    by (repeat constructor).
  split; [exact Hall |].
  exact (proj1 (successful_load unit "/tmp/perf.data" _ Reference.blank Hall)).
Defined.

(** ** The model after [setDisassembly] *)

Section AfterSetDisassembly.
Import Qt SourceCodeModel Stated Reading.
Context `{DA : Data.Api} `{TA : Text.Api}.
Implicit Type m : SourceCodeModel.t.
Implicit Type out : DisassemblyOutput.
Implicit Type results : Data.CallerCalleeResults.
Implicit Type st : LoopState.
Implicit Type l : DisassemblyLine.
Local Open Scope Z_scope.

(** The members after a call that read the file and returned. *)
Lemma setDisassembly_returned fs out results m m' :
  fileOpens fs out m ->
  setDisassembly fs out results m = Returned m' ->
  let st := runLoop out results in
  0 < st.(minLineNumber) < st.(maxLineNumber)
  /\ m'.(m_validLineNumbers) = st.(loop_validLineNumbers)
  /\ m'.(m_lineOffset) = st.(minLineNumber) - 1
  /\ m'.(m_startLine) = st.(minLineNumber) - 2
  /\ m'.(m_numLines) = st.(maxLineNumber) - (st.(minLineNumber) - 2)
  /\ m'.(m_selfCosts) = st.(loop_selfCosts)
  /\ m'.(m_inclusiveCosts) = st.(loop_inclusiveCosts)
  /\ m'.(m_mainSourceFileName) = out.(mainSourceFileName)
  /\ m'.(m_sysroot) = m.(m_sysroot)
  /\ m'.(m_highlightLine) = m.(m_highlightLine).
Proof.
  intros (Hname & sourceCode & Hfile) Hret st.
  unfold setDisassembly in Hret. rewrite Hname, Hfile in Hret.
  fold st in Hret. rewrite Z.gtb_ltb in Hret.
  destruct (Z.ltb_spec 0 st.(minLineNumber)) as [Hpos | Hneg];
    cbn [negb] in Hret; [| discriminate Hret].
  destruct (Z.ltb_spec st.(minLineNumber) st.(maxLineNumber)) as [Hlt | Hge];
    cbn [negb] in Hret; [| discriminate Hret].
  injection Hret as <-. cbn. repeat split; assumption.
Qed.

(** The loop's bounds enclose every entry of the main source file. *)
Lemma runLoop_encloses out results l :
  ofMainFile out l ->
  minLineNumber (runLoop out results) <= l.(sourceCodeLine)
    <= maxLineNumber (runLoop out results).
Proof.
  intros Hl. apply ofMainFile_skipped in Hl as (Hin & Hs).
  destruct (loop_bounds out results out.(disassemblyLines) (loopInit results))
    as (_ & Hencl & _).
  exact (Hencl l Hin Hs).
Qed.

Lemma runLoop_valid out results (v : Z) :
  v ∈ loop_validLineNumbers (runLoop out results) <->
  exists l, ofMainFile out l /\ l.(sourceCodeLine) = v.
Proof.
  unfold runLoop. rewrite loop_collects.
  cbn [loopInit loop_validLineNumbers]. split.
  - intros [Hin | (l & Hl & Hs & Hv)].
    + exfalso. exact (not_elem_of_empty v Hin).
    + exists l. split; [apply ofMainFile_skipped; auto | exact Hv].
  - intros (l & Hl & Hv). right. exists l.
    apply ofMainFile_skipped in Hl as (Hl & Hs). auto.
Qed.

Lemma columnCount_root m :
  columnCount m rootIndex
  = COLUMN_COUNT + Data.numTypes m.(m_selfCosts)
    + Data.numTypes m.(m_inclusiveCosts).
Proof. reflexivity. Qed.

(** The rows of the entries, for a call of the checked model that
    returned. *)
Lemma rows_cover_lines_returned fs out results m m' l (c : Z)
    (attached : bool) :
  fileOpens fs out m ->
  setDisassembly fs out results m = Returned m' ->
  ofMainFile out l ->
  0 <= c < columnCount m' rootIndex ->
  let index := mkIndex (l.(sourceCodeLine) - m'.(m_lineOffset)) c attached in
  1 <= index.(row) < m'.(m_numLines)
  /\ hasIndex m' index.(row) index.(column) (parent index) = true
  /\ lineForIndex m' index = l.(sourceCodeLine)
  /\ data m' index LineNumberRole = VInt l.(sourceCodeLine)
  /\ data m' index RainbowLineNumberRole = VInt l.(sourceCodeLine).
Proof.
  intros Hopen Hret Hl Hc index.
  destruct (setDisassembly_returned fs out results m m' Hopen Hret)
    as (Hb & Hvalid & Hoff & _ & Hnum & _).
  pose proof (runLoop_encloses out results l Hl) as Hencl.
  assert (Hrow : 1 <= index.(row) < m'.(m_numLines))
    by (cbn [index row]; lia).
  assert (Hacc : hasIndex m' index.(row) index.(column) (parent index) = true).
  { apply hasIndex_parent_true. rewrite columnCount_root in Hc.
    cbn [index row column] in *. lia. }
  assert (Hline : index.(row) + m'.(m_lineOffset) = l.(sourceCodeLine))
    by (cbn [index row]; lia).
  split; [exact Hrow |]. split; [exact Hacc |].
  split; [exact Hline |]. split.
  - unfold data. rewrite Hacc, (data_guards m' index Hacc). cbn [negb].
    rewrite Hline. reflexivity.
  - destruct (data_rainbow m' index Hacc) as (Hin & _).
    cbn zeta in Hin. rewrite Hline in Hin. apply Hin.
    rewrite Hvalid. apply runLoop_valid. exists l. auto.
Qed.

(** The geometry, for a call of the checked model that returned. *)
Lemma geometry_returned fs out results m m' :
  fileOpens fs out m ->
  setDisassembly fs out results m = Returned m' ->
  m'.(m_startLine) = m'.(m_lineOffset) - 1
  /\ 0 <= m'.(m_lineOffset)
  /\ 3 <= m'.(m_numLines)
  /\ (m'.(m_lineOffset) ∉ m'.(m_validLineNumbers))
  /\ (forall (c : Z) (attached : bool),
        0 <= c < columnCount m' rootIndex ->
        data m' (mkIndex 0 c attached) RainbowLineNumberRole = VInt (-1)).
Proof.
  intros Hopen Hret.
  destruct (setDisassembly_returned fs out results m m' Hopen Hret)
    as (Hb & Hvalid & Hoff & Hstart & Hnum & _).
  assert (Hnot : m'.(m_lineOffset) ∉ m'.(m_validLineNumbers)).
  { rewrite Hvalid. intros Hin. apply runLoop_valid in Hin as (l & Hl & Hv).
    pose proof (runLoop_encloses out results l Hl). lia. }
  split; [lia |]. split; [lia |]. split; [lia |]. split; [exact Hnot |].
  intros c attached Hc.
  assert (Hacc : hasIndex m' 0 c (parent (mkIndex 0 c attached)) = true).
  { apply (hasIndex_parent_true m' (mkIndex 0 c attached)).
    rewrite columnCount_root in Hc. cbn [row column]. lia. }
  destruct (data_rainbow m' (mkIndex 0 c attached) Hacc) as (_ & Hout).
  apply Hout. cbn [row]. rewrite Z.add_0_l. exact Hnot.
Qed.

(** The range of the rows, for a call of the checked model that
    returned. *)
Lemma range_is_tight_returned fs out results m m' :
  fileOpens fs out m ->
  intLines out ->
  setDisassembly fs out results m = Returned m' ->
  (forall v : Z,
      v ∈ m'.(m_validLineNumbers) ->
      m'.(m_lineOffset) + 1 <= v <= m'.(m_lineOffset) + (m'.(m_numLines) - 1))
  /\ m'.(m_lineOffset) + 1 ∈ m'.(m_validLineNumbers)
  /\ m'.(m_lineOffset) + (m'.(m_numLines) - 1) ∈ m'.(m_validLineNumbers).
Proof.
  intros Hopen Hint Hret.
  destruct (setDisassembly_returned fs out results m m' Hopen Hret)
    as (Hb & Hvalid & Hoff & _ & Hnum & _).
  destruct (loop_bounds out results out.(disassemblyLines) (loopInit results))
    as (_ & _ & Hmin & Hmax).
  fold (runLoop out results) in Hmin, Hmax.
  cbn [loopInit minLineNumber maxLineNumber] in Hmin, Hmax.
  assert (Hhi : exists b, ofMainFile out b
                  /\ b.(sourceCodeLine) = maxLineNumber (runLoop out results)).
  { destruct Hmax as [Hmax | (b & Hin & Hs & Hv)]; [lia |].
    exists b. split; [apply ofMainFile_skipped; auto | exact Hv]. }
  assert (Hlo : exists a, ofMainFile out a
                  /\ a.(sourceCodeLine) = minLineNumber (runLoop out results)).
  { destruct Hmin as [Hmin | (a & Hin & Hs & Hv)].
    - exfalso. destruct Hhi as (b & (Hin & _) & Hv).
      destruct (Hint b Hin) as (_ & Hle). lia.
    - exists a. split; [apply ofMainFile_skipped; auto | exact Hv]. }
  rewrite Hvalid. split; [| split].
  - intros v Hv. apply runLoop_valid in Hv as (l & Hl & <-).
    pose proof (runLoop_encloses out results l Hl). lia.
  - apply runLoop_valid. destruct Hlo as (a & Ha & Hv). exists a.
    split; [exact Ha | lia].
  - apply runLoop_valid. destruct Hhi as (b & Hb' & Hv). exists b.
    split; [exact Hb' | lia].
Qed.

(** *** The same in [int], with or without the assertions *)

Import IntBuild.

Lemma wrapInt_id (z : Z) : INT_MIN <= z <= INT_MAX -> wrapInt z = z.
Proof.
  unfold wrapInt, INT_MIN, INT_MAX. intros Hz.
  rewrite Z.mod_small by lia. lia.
Qed.

(** When the assertions hold and the span fits, the bounds of the loop
    are line numbers of entries and nothing overflows. *)
Lemma runLoop_in_int out results :
  intLines out ->
  noNegativeLine out ->
  twoDistinctPositiveLines out ->
  spanFitsInt out ->
  let st := runLoop out results in
  0 < st.(minLineNumber) < st.(maxLineNumber)
  /\ st.(maxLineNumber) <= INT_MAX
  /\ st.(maxLineNumber) - st.(minLineNumber) + 2 <= INT_MAX.
Proof.
  intros Hint Hnoneg Htwo Hspan st.
  assert (Hpass : 0 < st.(minLineNumber) < st.(maxLineNumber))
    by (apply (assertions_pass_iff out results Hint); split; assumption).
  destruct (loop_bounds out results out.(disassemblyLines) (loopInit results))
    as (_ & _ & Hmin & Hmax).
  fold (runLoop out results) in Hmin, Hmax. fold st in Hmin, Hmax.
  cbn [loopInit minLineNumber maxLineNumber] in Hmin, Hmax.
  assert (Hhi : exists b, ofMainFile out b
                  /\ b.(sourceCodeLine) = st.(maxLineNumber)).
  { destruct Hmax as [Hmax | (b & Hin & Hs & Hv)]; [lia |].
    exists b. split; [apply ofMainFile_skipped; auto | exact Hv]. }
  destruct Hhi as (b & Hb & Hbv).
  assert (Hlo : exists a, ofMainFile out a
                  /\ a.(sourceCodeLine) = st.(minLineNumber)).
  { destruct Hmin as [Hmin | (a & Hin & Hs & Hv)].
    - exfalso. destruct Hb as (Hin & _).
      destruct (Hint b Hin) as (_ & Hle). lia.
    - exists a. split; [apply ofMainFile_skipped; auto | exact Hv]. }
  destruct Hlo as (a & Ha & Hav).
  pose proof (Hspan a b Ha Hb) as Hfit.
  destruct Hb as (Hbin & _). destruct (Hint b Hbin) as (_ & Hble).
  split; [exact Hpass |]. split; lia.
Qed.

(** Under these conditions the build with assertions returns, and it
    returns what the build without assertions computes in [int]. *)
Lemma builds_agree fs out results m :
  fileOpens fs out m ->
  intLines out ->
  noNegativeLine out ->
  twoDistinctPositiveLines out ->
  spanFitsInt out ->
  setDisassembly fs out results m
  = Returned (setDisassembly_noAssert fs out results m).
Proof.
  intros (Hname & sourceCode & Hfile) Hint Hnoneg Htwo Hspan.
  destruct (runLoop_in_int out results Hint Hnoneg Htwo Hspan)
    as ((Hpos & Hlt) & Hmax & Hfit).
  unfold setDisassembly, setDisassembly_noAssert. rewrite Hname, Hfile.
  set (st := runLoop out results) in *.
  rewrite (wrapInt_id (st.(minLineNumber) - 2))
    by (unfold INT_MIN, INT_MAX in *; lia).
  rewrite (wrapInt_id (st.(minLineNumber) - 1))
    by (unfold INT_MIN, INT_MAX in *; lia).
  rewrite (wrapInt_id (st.(maxLineNumber) - (st.(minLineNumber) - 2)))
    by (unfold INT_MIN, INT_MAX in *; lia).
  rewrite Z.gtb_ltb.
  destruct (Z.ltb_spec 0 st.(minLineNumber)); [| lia].
  destruct (Z.ltb_spec st.(minLineNumber) st.(maxLineNumber)); [| lia].
  reflexivity.
Qed.

(** X8.  Take a disassembly whose file opens, whose line numbers are
    [int]s, whose main-file entries have at least two distinct line
    numbers, all positive (so that both assertions hold), and whose span
    fits an [int].  Then [setDisassembly] gives the same model with and
    without assertions, and in it every entry of the main source file has
    its row: the row [sourceCodeLine - m_lineOffset] lies between 1 and
    the last row, [hasIndex] accepts it in every column, [lineForIndex]
    of it is the entry's line number again, and [data] reports that line
    number under [LineNumberRole] and [RainbowLineNumberRole]. *)
Theorem setDisassembly_rows_cover_lines fs out results m l (c : Z)
    (attached : bool) :
  fileOpens fs out m ->
  intLines out ->
  noNegativeLine out ->
  twoDistinctPositiveLines out ->
  spanFitsInt out ->
  ofMainFile out l ->
  let m' := setDisassembly_noAssert fs out results m in
  0 <= c < columnCount m' rootIndex ->
  let index := mkIndex (l.(sourceCodeLine) - m'.(m_lineOffset)) c attached in
  setDisassembly fs out results m = Returned m'
  /\ 1 <= index.(row) < m'.(m_numLines)
  /\ m'.(m_numLines) <= INT_MAX
  /\ hasIndex m' index.(row) index.(column) (parent index) = true
  /\ lineForIndex m' index = l.(sourceCodeLine)
  /\ data m' index LineNumberRole = VInt l.(sourceCodeLine)
  /\ data m' index RainbowLineNumberRole = VInt l.(sourceCodeLine).
Proof.
  intros Hopen Hint Hnoneg Htwo Hspan Hl m' Hc index.
  pose proof (builds_agree fs out results m Hopen Hint Hnoneg Htwo Hspan)
    as Hret. fold m' in Hret.
  destruct (rows_cover_lines_returned fs out results m m' l c attached
              Hopen Hret Hl Hc) as (Hrow & Hacc & Hline & Hnum & Hrain).
  destruct (setDisassembly_returned fs out results m m' Hopen Hret)
    as (_ & _ & _ & _ & Hrows & _).
  destruct (runLoop_in_int out results Hint Hnoneg Htwo Hspan)
    as (_ & _ & Hfit).
  cbn zeta in Hrows, Hfit.
  split; [exact Hret |]. split; [exact Hrow |]. split; [lia |].
  repeat split; assumption.
Qed.

(** X9.  Under the conditions of X8, in the model that [setDisassembly]
    gives with and without assertions the start line is one below the
    line offset, the offset is not negative, there are at least three and
    at most [INT_MAX] rows, and row 0 belongs to no line of the
    disassembly: [m_lineOffset] is not a valid line number and [data]
    reports -1 for row 0 under [RainbowLineNumberRole]. *)
Theorem setDisassembly_geometry fs out results m :
  fileOpens fs out m ->
  intLines out ->
  noNegativeLine out ->
  twoDistinctPositiveLines out ->
  spanFitsInt out ->
  let m' := setDisassembly_noAssert fs out results m in
  setDisassembly fs out results m = Returned m'
  /\ m'.(m_startLine) = m'.(m_lineOffset) - 1
  /\ 0 <= m'.(m_lineOffset)
  /\ 3 <= m'.(m_numLines) <= INT_MAX
  /\ (m'.(m_lineOffset) ∉ m'.(m_validLineNumbers))
  /\ (forall (c : Z) (attached : bool),
        0 <= c < columnCount m' rootIndex ->
        data m' (mkIndex 0 c attached) RainbowLineNumberRole = VInt (-1)).
Proof.
  intros Hopen Hint Hnoneg Htwo Hspan m'.
  pose proof (builds_agree fs out results m Hopen Hint Hnoneg Htwo Hspan)
    as Hret. fold m' in Hret.
  destruct (geometry_returned fs out results m m' Hopen Hret)
    as (Hstart & Hoff & Hthree & Hnot & Hzero).
  destruct (setDisassembly_returned fs out results m m' Hopen Hret)
    as (_ & _ & _ & _ & Hrows & _).
  destruct (runLoop_in_int out results Hint Hnoneg Htwo Hspan)
    as (_ & _ & Hfit).
  cbn zeta in Hrows, Hfit.
  split; [exact Hret |]. split; [exact Hstart |]. split; [exact Hoff |].
  split; [lia |]. split; [exact Hnot | exact Hzero].
Qed.

(** X10.  Under the conditions of X8, in the model that [setDisassembly]
    gives with and without assertions the rows are no more than needed:
    every valid line number lies between the line of row 1 and the line
    of the last row, and both of these are valid line numbers. *)
Theorem setDisassembly_range_is_tight fs out results m :
  fileOpens fs out m ->
  intLines out ->
  noNegativeLine out ->
  twoDistinctPositiveLines out ->
  spanFitsInt out ->
  let m' := setDisassembly_noAssert fs out results m in
  setDisassembly fs out results m = Returned m'
  /\ (forall v : Z,
        v ∈ m'.(m_validLineNumbers) ->
        m'.(m_lineOffset) + 1 <= v
          <= m'.(m_lineOffset) + (m'.(m_numLines) - 1))
  /\ m'.(m_lineOffset) + 1 ∈ m'.(m_validLineNumbers)
  /\ m'.(m_lineOffset) + (m'.(m_numLines) - 1) ∈ m'.(m_validLineNumbers).
Proof.
  intros Hopen Hint Hnoneg Htwo Hspan m'.
  pose proof (builds_agree fs out results m Hopen Hint Hnoneg Htwo Hspan)
    as Hret. fold m' in Hret.
  split; [exact Hret |].
  exact (range_is_tight_returned fs out results m m' Hopen Hint Hret).
Qed.

End AfterSetDisassembly.

(** ** Cells, costs and notifications *)

Section Cells.
Import Qt SourceCodeModel Stated Reading Notify.
Context `{DA : Data.Api} `{TA : Text.Api}.
Implicit Type m : SourceCodeModel.t.
Implicit Type out : DisassemblyOutput.
Implicit Type results : Data.CallerCalleeResults.
Implicit Type st : LoopState.
Implicit Type l : DisassemblyLine.
Local Open Scope Z_scope.

Lemma data_rejected m (index : QModelIndex) (role : Role) :
  hasIndex m index.(row) index.(column) (parent index) = false ->
  data m index role = Invalid.
Proof. intros Hrej. unfold data. rewrite Hrej. reflexivity. Qed.

(** X11.  After a [setDisassembly] that returned early (empty file name
    or a file that does not open) the model is empty: [hasIndex] accepts
    no position and [data] is invalid for every index and role, whatever
    the members that were left untouched still hold. *)
Theorem setDisassembly_without_source_is_empty fs out results m :
  QString.isEmpty out.(mainSourceFileName) = true
  \/ fs (m.(m_sysroot) +:+ separator +:+ out.(mainSourceFileName)) = None ->
  exists m',
    setDisassembly fs out results m = Returned m'
    /\ (forall (r c : Z) (p : QModelIndex), hasIndex m' r c p = false)
    /\ (forall (index : QModelIndex) (role : Role),
          data m' index role = Invalid).
Proof.
  intros Hcase.
  assert (Hret : exists m', setDisassembly fs out results m = Returned m'
                            /\ m'.(m_numLines) = 0).
  { unfold setDisassembly.
    destruct (QString.isEmpty out.(mainSourceFileName)) eqn:Hname.
    - eexists. split; reflexivity.
    - destruct Hcase as [Habs | Hfile]; [discriminate |].
      rewrite Hfile. eexists. split; reflexivity. }
  destruct Hret as (m' & Hret & Hnum). exists m'.
  assert (Hnone : forall (r c : Z) (p : QModelIndex), hasIndex m' r c p = false).
  { intros r c p. unfold hasIndex, rowCount. rewrite Hnum.
    destruct (Z.ltb_spec r 0); [reflexivity |].
    destruct (c <? 0); [reflexivity |]. cbn [orb].
    assert (Hr : (r <? (if isValid p then 0 else 0)) = false)
      by (destruct (isValid p); apply Z.ltb_ge; lia).
    rewrite Hr. reflexivity. }
  split; [exact Hret |]. split; [exact Hnone |].
  intros index role. apply data_rejected. apply Hnone.
Qed.

(** X12.  [data] answers only inside the grid: a valid result means that
    the row is between 0 and [m_numLines - 1] and the column between 0
    and [columnCount() - 1]. *)
Theorem data_only_inside_grid m (index : QModelIndex) (role : Role) :
  data m index role <> Invalid ->
  0 <= index.(row) < rowCount m rootIndex
  /\ 0 <= index.(column) < columnCount m rootIndex.
Proof.
  intros Hvalid.
  destruct (hasIndex m index.(row) index.(column) (parent index)) eqn:Hacc.
  - apply hasIndex_parent_true in Hacc. exact Hacc.
  - exfalso. apply Hvalid. apply data_rejected. exact Hacc.
Qed.

(** X13.  After [updateHighlighting(line)] an accepted index is reported
    as highlighted exactly when its row is [line - m_lineOffset], so at
    most one row is highlighted; every other role reports what it
    reported before. *)
Theorem updateHighlighting_marks_one_row m (line : Z) (index : QModelIndex) :
  hasIndex m index.(row) index.(column) (parent index) = true ->
  (data (updateHighlighting line m) index HighlightRole = VBool true <->
     index.(row) = line - m.(m_lineOffset))
  /\ (index.(row) <> line - m.(m_lineOffset) ->
        data (updateHighlighting line m) index HighlightRole = VBool false)
  /\ (forall role : Role,
        role <> HighlightRole ->
        data (updateHighlighting line m) index role = data m index role).
Proof.
  intros Hacc.
  assert (Hacc' : hasIndex (updateHighlighting line m) index.(row)
                    index.(column) (parent index) = true) by exact Hacc.
  assert (Hcell : data (updateHighlighting line m) index HighlightRole
                  = VBool (index.(row) + m.(m_lineOffset) =? line)).
  { unfold data. rewrite Hacc'.
    rewrite (data_guards (updateHighlighting line m) index Hacc').
    reflexivity. }
  split; [| split].
  - rewrite Hcell. split.
    + intros Heq. injection Heq as Heq. apply Z.eqb_eq in Heq. lia.
    + intros Hrow. f_equal. apply Z.eqb_eq. lia.
  - intros Hrow. rewrite Hcell. f_equal. apply Z.eqb_neq. lia.
  - intros role Hrole. destruct role; try reflexivity. contradiction.
Qed.

(** X14.  The range that [updateHighlighting] announces ends outside the
    model: its lower corner names row [rowCount()], one past the last
    row, which [hasIndex] rejects and for which [data] is invalid; the
    upper corner is row 0 of the source-code column. *)
Theorem updateHighlighting_announces_past_the_end m :
  let corners := updateHighlighting_dataChanged m in
  (fst corners).(row) = 0
  /\ (fst corners).(column) = SourceCodeColumn
  /\ (snd corners).(row) = m.(m_numLines)
  /\ hasIndex m (snd corners).(row) (snd corners).(column)
       (parent (snd corners)) = false
  /\ (forall role : Role, data m (snd corners) role = Invalid).
Proof.
  cbn zeta.
  assert (Hrej : hasIndex m (snd (updateHighlighting_dataChanged m)).(row)
                   (snd (updateHighlighting_dataChanged m)).(column)
                   (parent (snd (updateHighlighting_dataChanged m))) = false).
  { destruct (hasIndex m _ _ _) eqn:Hacc; [| reflexivity].
    apply hasIndex_parent_true in Hacc. cbn in Hacc. lia. }
  split; [reflexivity |]. split; [reflexivity |]. split; [reflexivity |].
  split; [exact Hrej |].
  intros role. apply data_rejected. exact Hrej.
Qed.

Lemma skipped_decide (main : string) l :
  skipped main l
  = negb (bool_decide (l.(sourceFileName) = main ∧ l.(sourceCodeLine) ≠ 0)).
Proof.
  destruct (skipped main l) eqn:Hs.
  - rewrite bool_decide_eq_false_2; [reflexivity |].
    intros HP. apply skipped_false in HP. congruence.
  - rewrite bool_decide_eq_true_2; [reflexivity |].
    apply skipped_false. exact Hs.
Qed.

(** The cost tables that the loop builds, entry by entry. *)
Lemma loop_costs out results (ls : list DisassemblyLine) st :
  let charged :=
    match Data.entries results out.(symbol) with
    | None => []
    | Some entry =>
        omap (fun l : DisassemblyLine =>
                if bool_decide (l.(sourceFileName) = out.(mainSourceFileName)
                                ∧ l.(sourceCodeLine) ≠ 0)
                then match Data.offsetMap entry l.(addr) with
                     | Some locationCost =>
                         Some (l.(sourceCodeLine), locationCost)
                     | None => None
                     end
                else None) ls
    end in
  loop_selfCosts (fold_left (loopBody out results) ls st)
  = fold_left (fun c p => Data.add c (fst p) (Data.selfCost (snd p)))
      charged st.(loop_selfCosts)
  /\ loop_inclusiveCosts (fold_left (loopBody out results) ls st)
     = fold_left (fun c p => Data.add c (fst p) (Data.inclusiveCost (snd p)))
         charged st.(loop_inclusiveCosts).
Proof.
  cbn zeta. revert st. induction ls as [| x ls IH]; intros st.
  - destruct (Data.entries results _); split; reflexivity.
  - cbn [fold_left]. destruct (IH (loopBody out results st x)) as (IHs & IHi).
    rewrite IHs, IHi. clear IH IHs IHi. unfold loopBody.
    rewrite (skipped_decide out.(mainSourceFileName) x).
    destruct (Data.entries results out.(symbol)) as [entry |].
    + cbn [omap list_omap].
      destruct (bool_decide _); cbn [negb]; [| split; reflexivity].
      destruct (Data.offsetMap entry x.(addr)); split; reflexivity.
    + destruct (bool_decide _); split; reflexivity.
Qed.

(** X15.  After a [setDisassembly] that read the file and returned, each
    cost table is the one initialised from the results to which the costs
    of the charged entries were added in the order of the disassembly:
    the entries of the main source file with a line number other than 0
    whose address has a cost in the offset map of the symbol.  When the
    results have no entry for the symbol, nothing is added. *)
Theorem setDisassembly_costs fs out results m m' :
  fileOpens fs out m ->
  setDisassembly fs out results m = Returned m' ->
  m'.(m_selfCosts)
  = fold_left (fun c p => Data.add c (fst p) (Data.selfCost (snd p)))
      (charges out results)
      (Data.initializeCostsFrom Data.Costs_init (Data.selfCosts results))
  /\ m'.(m_inclusiveCosts)
     = fold_left (fun c p => Data.add c (fst p) (Data.inclusiveCost (snd p)))
         (charges out results)
         (Data.initializeCostsFrom Data.Costs_init
            (Data.inclusiveCosts results))
  /\ (Data.entries results out.(symbol) = None ->
        m'.(m_selfCosts)
        = Data.initializeCostsFrom Data.Costs_init (Data.selfCosts results)
        /\ m'.(m_inclusiveCosts)
           = Data.initializeCostsFrom Data.Costs_init
               (Data.inclusiveCosts results)).
Proof.
  intros Hopen Hret.
  destruct (setDisassembly_returned fs out results m m' Hopen Hret)
    as (_ & _ & _ & _ & _ & Hself & Hincl & _).
  destruct (loop_costs out results out.(disassemblyLines) (loopInit results))
    as (Hs & Hi).
  fold (runLoop out results) in Hs, Hi. fold (charges out results) in Hs, Hi.
  cbn [loopInit loop_selfCosts loop_inclusiveCosts] in Hs, Hi.
  rewrite Hself, Hincl. split; [exact Hs |]. split; [exact Hi |].
  intros Hnone. rewrite Hs, Hi. unfold charges. rewrite Hnone.
  split; reflexivity.
Qed.

(** X16.  On a cost column of an accepted index, [TotalCostRole] gives
    the total of the column's cost type, whatever the row, and
    [DisplayRole] and [ToolTipRole] both give the relative cost formatted
    by [Util::formatCostRelative] from the cell's cost and that total. *)
Theorem data_cost_column_roles m (index : QModelIndex) :
  hasIndex m index.(row) index.(column) (parent index) = true ->
  COLUMN_COUNT <= index.(column) ->
  let selfTypes := Data.numTypes m.(m_selfCosts) in
  let type := index.(column) - COLUMN_COUNT in
  let costs := if type <? selfTypes then m.(m_selfCosts)
               else m.(m_inclusiveCosts) in
  let type' := if type <? selfTypes then type else type - selfTypes in
  let line := index.(row) + m.(m_lineOffset) in
  data m index TotalCostRole = VULongLong (Data.totalCost costs type')
  /\ data m index DisplayRole
     = VString (Data.formatCostRelative (Data.cost costs type' line)
                  (Data.totalCost costs type') true)
  /\ data m index ToolTipRole = data m index DisplayRole.
Proof.
  intros Hacc Hc selfTypes type costs type' line.
  unfold data. rewrite Hacc, (data_guards m index Hacc). cbn [negb].
  unfold COLUMN_COUNT, SourceCodeColumn, SourceCodeLineNumber in *.
  destruct (Z.eqb_spec index.(column) 0); [lia |].
  destruct (Z.eqb_spec index.(column) 1); [lia |].
  unfold costs, type', type, selfTypes, COLUMN_COUNT.
  destruct (index.(column) - 2 <? Data.numTypes m.(m_selfCosts));
    repeat split.
Qed.

(** X17.  A [setDisassembly] whose file opens forgets what an earlier
    call left: two models with the same [m_sysroot], document and
    highlighted line give the same outcome, whatever their cost tables,
    line numbers, offsets and file names were. *)
Theorem setDisassembly_forgets_earlier_call fs out results m1 m2 :
  fileOpens fs out m1 ->
  m1.(m_sysroot) = m2.(m_sysroot) ->
  m1.(m_document) = m2.(m_document) ->
  m1.(m_highlightLine) = m2.(m_highlightLine) ->
  setDisassembly fs out results m1 = setDisassembly fs out results m2.
Proof.
  intros (Hname & sourceCode & Hfile) Hroot Hdoc Hline.
  unfold setDisassembly. rewrite <- Hroot, <- Hdoc, <- Hline.
  rewrite Hname, Hfile. reflexivity.
Qed.

End Cells.

(** ** The further statements on the reference instances *)

Section FurtherOnReference.
Import Qt SourceCodeModel Stated Reading Notify Reference.
Local Open Scope Z_scope.

Lemma line5_ofMainFile : ofMainFile twoLines (line 24 "main.cpp" 5).
Proof.
  unfold ofMainFile. cbn. repeat split; try discriminate.
  apply list_elem_of_In. cbn. tauto.
Qed.

Lemma deliver_never_witness :
  MainWindow.mainPageStack_currentWidget unit
    (MainWindow.deliver unit (MainWindow.parsingFinished unit)
       (MainWindow.construct unit blank))
  <> MainWindow.mainPageStack_currentWidget unit
       (MainWindow.construct unit blank)
  /\ MainWindow.parsingFinished unit = MainWindow.parsingFinished unit.
Proof.
  assert (Hpage :
    MainWindow.mainPageStack_currentWidget unit
      (MainWindow.deliver unit (MainWindow.parsingFinished unit)
         (MainWindow.construct unit blank))
    <> MainWindow.mainPageStack_currentWidget unit
         (MainWindow.construct unit blank)) by (cbn; discriminate).
  split; [exact Hpage |].
  destruct (deliver_never unit (MainWindow.parsingFinished unit)
              (MainWindow.construct unit blank))
    as (_ & _ & _ & _ & Honly & _).
  exact (Honly Hpage).
Defined.

Lemma twoLines_spanFitsInt : IntBuild.spanFitsInt twoLines.
Proof.
  intros a b (Ha & _) (Hb & _). cbn in Ha, Hb. unfold INT_MAX.
  repeat (apply elem_of_cons in Ha as [-> | Ha]);
    repeat (apply elem_of_cons in Hb as [-> | Hb]);
    try (inversion Ha); try (inversion Hb); cbn; lia.
Qed.

Lemma setDisassembly_rows_cover_lines_witness :
  fileOpens disk twoLines shown
  /\ intLines twoLines
  /\ noNegativeLine twoLines
  /\ twoDistinctPositiveLines twoLines
  /\ IntBuild.spanFitsInt twoLines
  /\ ofMainFile twoLines (line 24 "main.cpp" 5)
  /\ 0 <= 0 < columnCount
                (IntBuild.setDisassembly_noAssert disk twoLines noResults shown)
                rootIndex
  /\ data (IntBuild.setDisassembly_noAssert disk twoLines noResults shown)
       (mkIndex 3 0 true) RainbowLineNumberRole = VInt 5.
Proof.
  assert (Hc : 0 <= 0 < columnCount
                 (IntBuild.setDisassembly_noAssert disk twoLines noResults
                    shown) rootIndex)
    by (vm_compute; split; [discriminate | reflexivity]).
  repeat (split; [first [exact twoLines_opens | exact twoLines_intLines
                        | exact twoLines_noNegativeLine
                        | exact twoLines_twoDistinctPositiveLines
                        | exact twoLines_spanFitsInt
                        | exact line5_ofMainFile | exact Hc] |]).
  destruct (setDisassembly_rows_cover_lines disk twoLines noResults shown
              (line 24 "main.cpp" 5) 0 true
              twoLines_opens twoLines_intLines twoLines_noNegativeLine
              twoLines_twoDistinctPositiveLines twoLines_spanFitsInt
              line5_ofMainFile Hc)
    as (_ & _ & _ & _ & _ & _ & Hrainbow).
  exact Hrainbow.
Defined.

Lemma setDisassembly_geometry_witness :
  fileOpens disk twoLines shown
  /\ intLines twoLines
  /\ noNegativeLine twoLines
  /\ twoDistinctPositiveLines twoLines
  /\ IntBuild.spanFitsInt twoLines
  /\ setDisassembly disk twoLines noResults shown
     = Returned (IntBuild.setDisassembly_noAssert disk twoLines noResults shown)
  /\ 3 <= (IntBuild.setDisassembly_noAssert disk twoLines noResults shown)
            .(m_numLines) <= INT_MAX.
Proof.
  repeat (split; [first [exact twoLines_opens | exact twoLines_intLines
                        | exact twoLines_noNegativeLine
                        | exact twoLines_twoDistinctPositiveLines
                        | exact twoLines_spanFitsInt] |]).
  destruct (setDisassembly_geometry disk twoLines noResults shown
              twoLines_opens twoLines_intLines twoLines_noNegativeLine
              twoLines_twoDistinctPositiveLines twoLines_spanFitsInt)
    as (Hret & _ & _ & Hrows & _).
  split; [exact Hret | exact Hrows].
Defined.

Lemma setDisassembly_range_is_tight_witness :
  fileOpens disk twoLines shown
  /\ intLines twoLines
  /\ noNegativeLine twoLines
  /\ twoDistinctPositiveLines twoLines
  /\ IntBuild.spanFitsInt twoLines
  /\ 3 ∈ (IntBuild.setDisassembly_noAssert disk twoLines noResults shown)
           .(m_validLineNumbers).
Proof.
  repeat (split; [first [exact twoLines_opens | exact twoLines_intLines
                        | exact twoLines_noNegativeLine
                        | exact twoLines_twoDistinctPositiveLines
                        | exact twoLines_spanFitsInt] |]).
  destruct (setDisassembly_range_is_tight disk twoLines noResults shown
              twoLines_opens twoLines_intLines twoLines_noNegativeLine
              twoLines_twoDistinctPositiveLines twoLines_spanFitsInt)
    as (_ & _ & Hfirst & _).
  exact Hfirst.
Defined.

Lemma setDisassembly_without_source_is_empty_witness :
  disk ("/sysroot" +:+ separator +:+ "gone.cpp") = None
  /\ exists m',
       setDisassembly disk missingFile noResults shown = Returned m'
       /\ data m' (mkIndex 1 1 true) DisplayRole = Invalid.
Proof.
  split; [reflexivity |].
  destruct (setDisassembly_without_source_is_empty disk missingFile noResults
              shown (or_intror eq_refl)) as (m' & Hret & _ & Hdata).
  exists m'. split; [exact Hret | apply Hdata].
Defined.

Lemma data_only_inside_grid_witness :
  data shown (mkIndex 1 1 true) DisplayRole <> Invalid
  /\ 0 <= 1 < rowCount shown rootIndex.
Proof.
  assert (Hvalid : data shown (mkIndex 1 1 true) DisplayRole <> Invalid)
    by (vm_compute; discriminate).
  split; [exact Hvalid |].
  exact (proj1 (data_only_inside_grid shown (mkIndex 1 1 true) DisplayRole
                  Hvalid)).
Defined.

Lemma updateHighlighting_marks_one_row_witness :
  hasIndex shown 3 0 (parent (mkIndex 3 0 true)) = true
  /\ data (updateHighlighting 5 shown) (mkIndex 3 0 true) HighlightRole
     = VBool true.
Proof.
  split; [reflexivity |].
  destruct (updateHighlighting_marks_one_row shown 5 (mkIndex 3 0 true)
              eq_refl) as (Hmark & _).
  apply Hmark. reflexivity.
Defined.

Lemma loadedCharged_returned :
  setDisassembly disk twoLines chargedResults shown = Returned loadedCharged.
Proof. vm_compute. reflexivity. Qed.

Lemma setDisassembly_costs_witness :
  fileOpens disk twoLines shown
  /\ setDisassembly disk twoLines chargedResults shown = Returned loadedCharged
  /\ charges twoLines chargedResults
     = [(3, @Data.mkLocationCost dataApi [4] [9])]
  /\ loadedCharged.(m_selfCosts)
     = Data.add
         (Data.initializeCostsFrom Data.Costs_init
            (Data.selfCosts chargedResults)) 3 [4]
  /\ loadedCharged.(m_inclusiveCosts)
     = Data.add
         (Data.initializeCostsFrom Data.Costs_init
            (Data.inclusiveCosts chargedResults)) 3 [9].
Proof.
  split; [exact twoLines_opens |]. split; [exact loadedCharged_returned |].
  assert (Hcharged : charges twoLines chargedResults
                     = [(3, @Data.mkLocationCost dataApi [4] [9])])
    by (vm_compute; reflexivity).
  split; [exact Hcharged |].
  destruct (setDisassembly_costs disk twoLines chargedResults shown
              loadedCharged twoLines_opens loadedCharged_returned)
    as (Hself & Hincl & _).
  rewrite Hcharged in Hself, Hincl.
  split; [exact Hself | exact Hincl].
Defined.

Lemma data_cost_column_roles_witness :
  hasIndex shown 1 3 (parent (mkIndex 1 3 true)) = true
  /\ COLUMN_COUNT <= 3
  /\ data shown (mkIndex 1 3 true) TotalCostRole = VULongLong 10.
Proof.
  assert (Hc : COLUMN_COUNT <= 3) by (unfold COLUMN_COUNT; lia).
  split; [reflexivity |]. split; [exact Hc |].
  exact (proj1 (data_cost_column_roles shown (mkIndex 1 3 true) eq_refl Hc)).
Defined.

Lemma setDisassembly_forgets_earlier_call_witness :
  fileOpens disk twoLines shown
  /\ shown.(m_sysroot) = unrelated.(m_sysroot)
  /\ shown.(m_document) = unrelated.(m_document)
  /\ shown.(m_highlightLine) = unrelated.(m_highlightLine)
  /\ setDisassembly disk twoLines noResults shown
     = setDisassembly disk twoLines noResults unrelated.
Proof.
  split; [exact twoLines_opens |]. repeat (split; [reflexivity |]).
  exact (setDisassembly_forgets_earlier_call disk twoLines noResults shown
           unrelated twoLines_opens eq_refl eq_refl eq_refl).
Defined.

End FurtherOnReference.
